(** * Verification of the webauth token handler

  Shallow embedding of [exp/services/webauth/internal/serve/token.go]:
  the handler [tokenHandler.ServeHTTP], the Go library values it computes
  with ([time.Time], [time.Duration], [jwt.NumericDate], [jwt.Claims]) and
  the collaborators it calls (request decoding, [txnbuild], the ledger
  client, the JOSE signer, the logger).

  The handler is written in a small writer monad with early exit: every
  call to a collaborator is recorded in a call log, and rendering a
  response ends the run, as [return] does in the Go source. *)

From Stdlib Require Import ZArith Lia.
From stdpp Require Import base option list strings gmap.

Local Open Scope string_scope.
Local Open Scope Z_scope.

(** ** Machine integers *)

(** Go's [int64] arithmetic wraps around in two's complement. *)
Definition wrap64 (z : Z) : Z := (z + 2 ^ 63) mod 2 ^ 64 - 2 ^ 63.

Definition int64_range (z : Z) : Prop := - 2 ^ 63 <= z < 2 ^ 63.

(** ** Package [time]: instants without a monotonic reading

  [time.Unix] builds a [Time] whose [wall] field holds only the nanoseconds
  and whose [ext] field holds the seconds since January 1, year 1; this is
  the only kind of [Time] the handler ever touches. *)
Module time.

(** [type Duration int64], a count of nanoseconds. *)
Definition Duration := Z.
Definition Nanosecond : Duration := 1.
Definition Millisecond : Duration := 1000000.
Definition Second : Duration := 1000000000.

Record Time := mkTime { ext : Z; nsec : Z }.

Definition unixToInternal : Z :=
  (1969 * 365 + 1969 / 4 - 1969 / 100 + 1969 / 400) * 86400.
Definition internalToUnix : Z := - unixToInternal.

(** [func unixTime(sec int64, nsec int32) Time] *)
Definition unixTime (sec nsec : Z) : Time :=
  mkTime (wrap64 (sec + unixToInternal)) nsec.

(** [func Unix(sec int64, nsec int64) Time]; Go's [/] truncates toward
  zero, which is [Z.quot]. *)
Definition Unix (sec nsec : Z) : Time :=
  if (nsec <? 0) || (1000000000 <=? nsec) then
    let n := Z.quot nsec 1000000000 in
    let sec := wrap64 (sec + n) in
    let nsec := nsec - n * 1000000000 in
    if nsec <? 0 then unixTime (wrap64 (sec - 1)) (nsec + 1000000000)
    else unixTime sec nsec
  else unixTime sec nsec.

(** [func (t *Time) addSec(d int64)] on an instant without a monotonic
  reading: [t.ext += d], which wraps around. (Later Go releases clamp the
  sum instead; the two agree wherever the sum stays in the int64 range, and
  the properties below are stated there.) *)
Definition addSec (t : Time) (d : Z) : Time :=
  mkTime (wrap64 (ext t + d)) (nsec t).

(** [func (t Time) Add(d Duration) Time]; Go's [%] takes the sign of the
  dividend, which is [Z.rem]. *)
Definition Add (t : Time) (d : Duration) : Time :=
  let dsec := Z.quot d 1000000000 in
  let ns := nsec t + Z.rem d 1000000000 in
  if 1000000000 <=? ns then addSec (mkTime (ext t) (ns - 1000000000)) (wrap64 (dsec + 1))
  else if ns <? 0 then addSec (mkTime (ext t) (ns + 1000000000)) (wrap64 (dsec - 1))
  else addSec (mkTime (ext t) ns) dsec.

(** [func (t Time) IsZero() bool] *)
Definition IsZero (t : Time) : bool := (ext t =? 0) && (nsec t =? 0).

(** [func (t Time) Unix() int64] *)
Definition UnixSec (t : Time) : Z := wrap64 (ext t + internalToUnix).

End time.

(** ** Package [jwt] of go-jose: numeric dates and the registered claims *)
Module jwt.

(** [type NumericDate int64]: whole seconds since the Unix epoch. *)
Definition NumericDate := Z.

(** [func NewNumericDate(t time.Time) *NumericDate]: [nil] for the zero
  time, the instant's Unix seconds otherwise; the nanoseconds are dropped. *)
Definition NewNumericDate (t : time.Time) : option NumericDate :=
  if time.IsZero t then None else Some (time.UnixSec t).

Record Claims := mkClaims {
  Issuer : string;
  Subject : string;
  Audience : list string;
  Expiry : option NumericDate;
  NotBefore : option NumericDate;
  IssuedAt : option NumericDate;
  ID : string
}.

End jwt.

(** ** Values exchanged with the collaborators *)

(** Go's [error] values, identified by their message. *)
Definition error := string.

Module keypair.
Record FromAddress := mkFromAddress { address : string }.
(** [func (kp *FromAddress) Address() string] *)
Definition Address (kp : FromAddress) : string := address kp.
End keypair.

Module txnbuild.

Record Timebounds := mkTimebounds { MinTime : Z; MaxTime : Z }.

(** A signature attached to a transaction: the hint of the signing key and
  the signature bytes. *)
Record DecoratedSignature := mkSig { Hint : string; Signature : string }.

(** What the handler reads of a parsed [txnbuild.Transaction]: its time
  bounds ([tx.Timebounds()]) and its signatures ([tx.Signatures()]).
  [envelope] stands for the rest of it. *)
Record Transaction := mkTransaction {
  envelope : string;
  timebounds : Timebounds;
  signatures : list DecoratedSignature
}.

Definition Timebounds_of (tx : Transaction) : Timebounds := timebounds tx.
Definition Signatures (tx : Transaction) : list DecoratedSignature := signatures tx.

(** [type Threshold uint8]; a [SignerSummary] is a [map[string]int32] from
  signer key to weight, here a [gmap string Z]. *)
Definition Threshold := Z.

End txnbuild.

Module auroraclient.

Record AccountRequest := mkAccountRequest { AccountID : string }.

Record AccountThresholds := mkThresholds {
  LowThreshold : Z;
  MedThreshold : Z;
  HighThreshold : Z
}.

(** Modelled from the spec: the account record and its [SignerSummary]
  method are declared outside the sources. Section 3 (AccountSignerTable):
  a mapping from signer identity to integer weight, plus the thresholds
  low, medium and high. *)
Record Account := mkAccount {
  Thresholds : AccountThresholds;
  Signers : gmap string Z
}.

Definition SignerSummary (a : Account) : gmap string Z := Signers a.

End auroraclient.

Module jose.

Record JSONWebKey := mkJWK { Key : string; Algorithm : string }.
Record SigningKey := mkSigningKey { SigAlgorithm : string; SigKey : string }.
(** [SignerOptions] after [WithType]: the [typ] header. *)
Record SignerOptions := mkSignerOptions { typ : option string }.
Definition WithType (o : SignerOptions) (t : string) : SignerOptions :=
  mkSignerOptions (Some t).
(** A constructed signer remembers what it was built from. *)
Record Signer := mkSigner { signerKey : SigningKey; signerOptions : SignerOptions }.

End jose.

(** An incoming HTTP request, as far as decoding looks at it. *)
Record Request := mkRequest { ContentType : string; Body : string }.

Record tokenRequest := mkTokenRequest { Transaction : string }.
Record tokenResponse := mkTokenResponse { Token : string }.

(** The ledger client held by the handler ([auroraclient.ClientInterface]):
  the one method the handler calls. Go returns the pair of an account record
  (the zero record on failure) and an error ([None] is [nil]). *)
Record ClientInterface := mkClient {
  AccountDetail : auroraclient.AccountRequest -> auroraclient.Account * option error
}.

(** ** Logging *)

Inductive FieldValue :=
| VString (s : string)
| VInt (n : Z).

Inductive Level := InfoLevel | ErrorLevel.

(** A [*supportlog.Entry]: the fields gathered so far. *)
Record Entry := mkEntry { fields : list (string * FieldValue) }.

Definition WithField (l : Entry) (k : string) (v : FieldValue) : Entry :=
  mkEntry ((fields l ++ [(k, v)])%list).

Definition WithStack (l : Entry) (err : error) : Entry :=
  mkEntry ((fields l ++ [("stack", VString err)])%list).

(** ** The handler and the package-level collaborators *)

Record tokenHandler := mkTokenHandler {
  Logger : Entry;
  AuroraClient : ClientInterface;
  NetworkPassphrase : string;
  SigningAddresses : list keypair.FromAddress;
  JWK : jose.JSONWebKey;
  JWTIssuer : string;
  JWTExpiresIn : time.Duration;
  AllowAccountsThatDoNotExist : bool;
  Domain : string;
  HomeDomains : list string
}.

(** The functions of other packages that [ServeHTTP] calls. Each returns what
  the Go function returns: the values and an error, [None] for [nil].
  [ReadChallengeTx] returns a transaction pointer, [None] for [nil].
  [CompactSerialize] stands for [jwt.Signed(jws).Claims(claims).CompactSerialize()].
  They are fixed for one run of the handler; two runs at different times
  may see different ones (parsing reads the clock, signing may draw
  randomness). *)
Record World := mkWorld {
  Decode : Request -> tokenRequest * option error;
  ReadChallengeTx :
    string -> string -> string -> string -> list string ->
    option txnbuild.Transaction * string * string * option error;
  HashHex : txnbuild.Transaction -> string -> string * option error;
  IsNotFoundError : error -> bool;
  VerifyChallengeTxThreshold :
    string -> string -> string -> string -> list string ->
    txnbuild.Threshold -> gmap string Z -> list string * option error;
  VerifyChallengeTxSigners :
    string -> string -> string -> string -> list string -> string ->
    list string * option error;
  NewSigner : jose.SigningKey -> jose.SignerOptions -> jose.Signer * option error;
  CompactSerialize : jose.Signer -> jwt.Claims -> string * option error
}.

(** One entry of the call log per call to a collaborator, with the
  arguments passed. *)
Inductive Call :=
| CallDecode (r : Request)
| CallReadChallengeTx (challengeTx serverAccountID network webAuthDomain : string)
    (homeDomains : list string)
| CallHashHex (tx : txnbuild.Transaction) (network : string)
| CallAccountDetail (req : auroraclient.AccountRequest)
| CallVerifyChallengeTxThreshold
    (challengeTx serverAccountID network webAuthDomain : string)
    (homeDomains : list string) (threshold : txnbuild.Threshold)
    (signerSummary : gmap string Z)
| CallVerifyChallengeTxSigners
    (challengeTx serverAccountID network webAuthDomain : string)
    (homeDomains : list string) (signer : string)
| CallNewSigner (sig : jose.SigningKey) (opts : jose.SignerOptions)
| CallCompactSerialize (signer : jose.Signer) (claims : jwt.Claims)
| CallLog (lvl : Level) (l : Entry) (msg : string).

(** The three error responses of the package. *)
Inductive httpError := badRequest | unauthorized | serverError.

(** How a run ends: an error response or the token response has been
  rendered, or the goroutine has panicked on a nil pointer. *)
Inductive Outcome :=
| Rendered (e : httpError)
| RenderedJSON (res : tokenResponse)
| Panicked.

(** ** The handler monad: a call log and early exit *)

Inductive Step (A : Type) :=
| Next (a : A)
| Done (o : Outcome).
Arguments Next {A} a.
Arguments Done {A} o.

Definition Handler (A : Type) : Type := list Call * Step A.

Definition ret {A} (a : A) : Handler A := ([], Next a).

Definition bind {A B} (m : Handler A) (k : A -> Handler B) : Handler B :=
  match m with
  | (l, Next a) => let '(l', s) := k a in ((l ++ l')%list, s)
  | (l, Done o) => (l, Done o)
  end.

Notation "x <- m ;; k" := (bind m (fun x => k))
  (at level 100, m at next level, right associativity).
Notation "m ;; k" := (bind m (fun _ => k))
  (at level 100, right associativity).

(** A call to a collaborator: logged, and its result handed on. *)
Definition call {A} (c : Call) (result : A) : Handler A := ([c], Next result).

(** [e.Render(w); return] *)
Definition Render {A} (e : httpError) : Handler A := ([], Done (Rendered e)).

(** [httpjson.Render(w, res, httpjson.JSON)] as the last statement. *)
Definition RenderJSON {A} (res : tokenResponse) : Handler A :=
  ([], Done (RenderedJSON res)).

(** Following a pointer: a nil pointer panics. *)
Definition deref {A} (p : option A) : Handler A :=
  match p with
  | Some a => ret a
  | None => ([], Done Panicked)
  end.

Definition Info (l : Entry) (msg : string) : Handler unit :=
  call (CallLog InfoLevel l msg) tt.

Definition Error (l : Entry) (err : error) : Handler unit :=
  call (CallLog ErrorLevel l err) tt.

(** ** [ServeHTTP] *)

(** The variables declared before the loop, with the [err] the loop
  assigns. *)
Record Vars := mkVars {
  tx : option txnbuild.Transaction;
  clientAccountID : string;
  signingAddress : option keypair.FromAddress;
  homeDomain : string;
  err : option error
}.

(** [for _, s := range h.SigningAddresses { ... }]: every round overwrites
  [tx], [clientAccountID], [homeDomain] and [err]; the first round without
  an error also sets [signingAddress] and leaves the loop. *)
Fixpoint rangeSigningAddresses (h : tokenHandler) (W : World) (req : tokenRequest)
    (ss : list keypair.FromAddress) (v : Vars) : Handler Vars :=
  match ss with
  | [] => ret v
  | s :: rest =>
      r <- call
        (CallReadChallengeTx (Transaction req) (keypair.Address s)
           (NetworkPassphrase h) (Domain h) (HomeDomains h))
        (ReadChallengeTx W (Transaction req) (keypair.Address s)
           (NetworkPassphrase h) (Domain h) (HomeDomains h)) ;;
      let '(tx', clientAccountID', homeDomain', err') := r in
      match err' with
      | None => ret (mkVars tx' clientAccountID' (Some s) homeDomain' err')
      | Some _ =>
          rangeSigningAddresses h W req rest
            (mkVars tx' clientAccountID' (signingAddress v) homeDomain' err')
      end
  end.

Definition ServeHTTP (h : tokenHandler) (W : World) (r : Request) : Handler Empty_set :=
  let ctxLogger := Logger h in
  d <- call (CallDecode r) (Decode W r) ;;
  let '(req, err) := d in
  match err with
  | Some _ => Render badRequest
  | None =>
  v <- rangeSigningAddresses h W req (SigningAddresses h)
         (mkVars None "" None "" err) ;;
  match signingAddress v with
  | None => Render badRequest
  | Some signingAddress =>
  if String.eqb (homeDomain v) "" then Render badRequest else
  tx0 <- deref (tx v) ;;
  hh <- call (CallHashHex tx0 (NetworkPassphrase h))
          (HashHex W tx0 (NetworkPassphrase h)) ;;
  let '(hash, err) := hh in
  match err with
  | Some e => Error (WithStack ctxLogger e) e ;; Render serverError
  | None =>
  let l :=
    WithField (WithField (WithField (WithField ctxLogger
      "tx" (VString hash))
      "account" (VString (clientAccountID v)))
      "serversigner" (VString (keypair.Address signingAddress)))
      "homedomain" (VString (homeDomain v)) in
  Info l "Start verifying challenge transaction." ;;
  ad <- call (CallAccountDetail (auroraclient.mkAccountRequest (clientAccountID v)))
          (AccountDetail (AuroraClient h)
             (auroraclient.mkAccountRequest (clientAccountID v))) ;;
  let '(clientAccount, err) := ad in
  clientAccountExists <-
    match err with
    | None => Info l "Account exists." ;; ret true
    | Some e =>
        if IsNotFoundError W e
        then Info l "Account does not exist." ;; ret false
        else Error (WithStack l e) e ;; Render serverError
    end ;;
  signersVerified <-
    (if clientAccountExists : bool then
       let requiredThreshold :=
         auroraclient.HighThreshold (auroraclient.Thresholds clientAccount) in
       let clientSignerSummary := auroraclient.SignerSummary clientAccount in
       vr <- call
         (CallVerifyChallengeTxThreshold (Transaction req)
            (keypair.Address signingAddress) (NetworkPassphrase h) (Domain h)
            (HomeDomains h) requiredThreshold clientSignerSummary)
         (VerifyChallengeTxThreshold W (Transaction req)
            (keypair.Address signingAddress) (NetworkPassphrase h) (Domain h)
            (HomeDomains h) requiredThreshold clientSignerSummary) ;;
       let '(signersVerified, err) := vr in
       match err with
       | Some _ =>
           tx1 <- deref (tx v) ;;
           Info
             (WithField (WithField (WithField l
                "signersCount" (VInt (Z.of_nat (size clientSignerSummary))))
                "signaturesCount"
                  (VInt (Z.of_nat (length (txnbuild.Signatures tx1)))))
                "requiredThreshold" (VInt requiredThreshold))
             "Failed to verify with signers that do not meet threshold." ;;
           Render unauthorized
       | None => ret signersVerified
       end
     else
       if negb (AllowAccountsThatDoNotExist h) then
         Info l "Failed to verify because accounts that do not exist are not allowed." ;;
         Render unauthorized
       else
       vr <- call
         (CallVerifyChallengeTxSigners (Transaction req)
            (keypair.Address signingAddress) (NetworkPassphrase h) (Domain h)
            (HomeDomains h) (clientAccountID v))
         (VerifyChallengeTxSigners W (Transaction req)
            (keypair.Address signingAddress) (NetworkPassphrase h) (Domain h)
            (HomeDomains h) (clientAccountID v)) ;;
       let '(signersVerified, err) := vr in
       match err with
       | Some _ =>
           Info l "Failed to verify with account master key as signer." ;;
           Render unauthorized
       | None => ret signersVerified
       end) ;;
  Info (WithField l "signers" (VString (String.concat "," signersVerified)))
    "Successfully verified challenge transaction." ;;
  let jwsOptions := jose.WithType (jose.mkSignerOptions None) "JWT" in
  ns <- call
    (CallNewSigner (jose.mkSigningKey (jose.Algorithm (JWK h)) (jose.Key (JWK h)))
       jwsOptions)
    (NewSigner W (jose.mkSigningKey (jose.Algorithm (JWK h)) (jose.Key (JWK h)))
       jwsOptions) ;;
  let '(jws, err) := ns in
  match err with
  | Some e => Error (WithStack l e) e ;; Render serverError
  | None =>
  tx2 <- deref (tx v) ;;
  let issuedAt := time.Unix (txnbuild.MinTime (txnbuild.Timebounds_of tx2)) 0 in
  let claims :=
    jwt.mkClaims (JWTIssuer h) (clientAccountID v) [] 
      (jwt.NewNumericDate (time.Add issuedAt (JWTExpiresIn h)))
      None
      (jwt.NewNumericDate issuedAt)
      "" in
  cs <- call (CallCompactSerialize jws claims) (CompactSerialize W jws claims) ;;
  let '(tokenStr, err) := cs in
  match err with
  | Some e => Error (WithStack l e) e ;; Render serverError
  | None => RenderJSON (mkTokenResponse tokenStr)
  end
  end
  end
  end
  end.

(** Every path through [ServeHTTP] ends by rendering (or panics): the call
  log and the way the run ended. *)
Definition calls (m : Handler Empty_set) : list Call := m.1.

Definition outcome (m : Handler Empty_set) : Outcome :=
  match m.2 with
  | Done o => o
  | Next e => match e with end
  end.

(** ** The verification primitives of [txnbuild] *)

Section Verifiers.

(** The signature check of the cryptography library: does this signature
  on this transaction verify under this signer's key? *)
Variable valid : string -> txnbuild.Transaction -> txnbuild.DecoratedSignature -> bool.

(** The challenge bears a valid signature of [signer]. *)
Definition signedBy (tx : txnbuild.Transaction) (signer : string) : bool :=
  existsb (valid signer tx) (txnbuild.Signatures tx).

(** The entries of the signer table whose key signed the challenge. A table
  holds each signer once, so each signer counts once however many of the
  signatures are its own. *)
Definition signersFound (tx : txnbuild.Transaction) (signerSummary : gmap string Z)
    : list (string * Z) :=
  List.filter (fun kw => signedBy tx kw.1) (map_to_list signerSummary).

Definition signedWeight (tx : txnbuild.Transaction) (signerSummary : gmap string Z) : Z :=
  foldr (fun kw acc => kw.2 + acc) 0 (signersFound tx signerSummary).

(** Modelled from the spec: the body of [txnbuild.VerifyChallengeTxThreshold]
  is not among the sources. Section 4.3: every signature is checked against
  the signer table, signatures of no known signer and repeated signatures of
  one signer add nothing, the weights of the distinct valid signers are
  summed, a sum below the required threshold fails, and success returns the
  signers that contributed. *)
Definition verifyThreshold (tx : txnbuild.Transaction) (signerSummary : gmap string Z)
    (threshold : txnbuild.Threshold) : list string * option error :=
  if signedWeight tx signerSummary <? threshold
  then ([], Some "signers with weight do not meet threshold")
  else ((signersFound tx signerSummary).*1, None).

(** Modelled from the spec: the body of [txnbuild.VerifyChallengeTxSigners]
  is not among the sources. Section 4.4: the challenge must carry a valid
  signature of the key that is the client account identifier itself. *)
Definition verifySignersOnly (tx : txnbuild.Transaction) (clientAccountID : string)
    : list string * option error :=
  if signedBy tx clientAccountID
  then ([clientAccountID], None)
  else ([], Some "transaction not signed by the client account").

(** Modelled from the spec: a world whose two verification functions are the
  ones above, applied to the challenge that [ReadChallengeTx] parses from
  the same arguments (section 6: both take the parsed challenge). *)
Definition withVerifiers (W : World) : World :=
  mkWorld (Decode W) (ReadChallengeTx W) (HashHex W) (IsNotFoundError W)
    (fun challengeTx serverAccountID network webAuthDomain homeDomains threshold signerSummary =>
       match ReadChallengeTx W challengeTx serverAccountID network webAuthDomain homeDomains with
       | (Some tx, _, _, None) => verifyThreshold tx signerSummary threshold
       | (_, _, _, Some e) => ([], Some e)
       | (None, _, _, None) => ([], Some "no challenge")
       end)
    (fun challengeTx serverAccountID network webAuthDomain homeDomains clientAccountID =>
       match ReadChallengeTx W challengeTx serverAccountID network webAuthDomain homeDomains with
       | (Some tx, _, _, None) => verifySignersOnly tx clientAccountID
       | (_, _, _, Some e) => ([], Some e)
       | (None, _, _, None) => ([], Some "no challenge")
       end)
    (NewSigner W) (CompactSerialize W).

End Verifiers.

(** Modelled from the spec: section 6 gives parsing the result type
  [Challenge | Error], so a call of [ReadChallengeTx] that returns no error
  returns a transaction. *)
Definition parsesOrFails (W : World) : Prop :=
  forall challengeTx serverAccountID network webAuthDomain homeDomains,
    (ReadChallengeTx W challengeTx serverAccountID network webAuthDomain homeDomains).2 = None ->
    (ReadChallengeTx W challengeTx serverAccountID network webAuthDomain homeDomains).1.1.1 <> None.

(** ** A concrete service, for running the handler *)
Module Sample.

Definition server1 : keypair.FromAddress := keypair.mkFromAddress "GSERVER1".
Definition server2 : keypair.FromAddress := keypair.mkFromAddress "GSERVER2".

Definition sig (who : string) : txnbuild.DecoratedSignature :=
  txnbuild.mkSig who ("signed:" ++ who).

(** A toy signature scheme: a signature is valid for the key it names. *)
Definition valid (signer : string) (tx : txnbuild.Transaction)
    (s : txnbuild.DecoratedSignature) : bool :=
  String.eqb (txnbuild.Signature s) ("signed:" ++ signer).

Definition challenge (signers : list string) : txnbuild.Transaction :=
  txnbuild.mkTransaction "challenge" (txnbuild.mkTimebounds 1600000000 1600000300)
    (map sig ("GSERVER2" :: signers)).

(** The challenges the sample service knows, by their serialized form; only
  the second server key validates them. *)
Definition parse (raw server : string)
    : option txnbuild.Transaction * string * string * option error :=
  if negb (String.eqb server "GSERVER2") then (None, "", "", Some "wrong source account")
  else if String.eqb raw "GALICE:A+B" then
    (Some (challenge ["GA"; "GB"]), "GALICE", "example.org", None)
  else if String.eqb raw "GALICE:A" then
    (Some (challenge ["GA"]), "GALICE", "example.org", None)
  else if String.eqb raw "GNEW:self" then
    (Some (challenge ["GNEW"]), "GNEW", "example.org", None)
  else if String.eqb raw "GNEW:other" then
    (Some (challenge ["GA"]), "GNEW", "example.org", None)
  else if String.eqb raw "GALICE:nodomain" then
    (Some (challenge ["GA"; "GB"]), "GALICE", "", None)
  else if String.eqb raw "GDOWN:A" then
    (Some (challenge ["GA"]), "GDOWN", "example.org", None)
  else (None, "", "", Some "could not parse challenge").

Definition alice : auroraclient.Account :=
  auroraclient.mkAccount (auroraclient.mkThresholds 1 10 30)
    (<["GA" := 20]> (<["GB" := 10]> (<["GC" := 5]> ∅))).

Definition noAccount : auroraclient.Account :=
  auroraclient.mkAccount (auroraclient.mkThresholds 0 0 0) ∅.

Definition ledger : ClientInterface :=
  mkClient (fun req =>
    if String.eqb (auroraclient.AccountID req) "GALICE" then (alice, None)
    else if String.eqb (auroraclient.AccountID req) "GDOWN" then (noAccount, Some "timeout")
    else (noAccount, Some "not found")).

Definition base (keyOk : bool) : World :=
  mkWorld
    (fun r => if String.eqb (Body r) "" then (mkTokenRequest "", Some "empty body")
              else (mkTokenRequest (Body r), None))
    (fun raw server _ _ _ => parse raw server)
    (fun tx _ => ("hash:" ++ txnbuild.envelope tx, None))
    (fun e => String.eqb e "not found")
    (fun _ _ _ _ _ _ _ => ([], Some "unused"))
    (fun _ _ _ _ _ _ => ([], Some "unused"))
    (fun k o => (jose.mkSigner k o, if keyOk then None else Some "unsupported key"))
    (fun s c => ("jwt:" ++ jwt.Subject c, None)).

Definition world (keyOk : bool) : World := withVerifiers valid (base keyOk).


Definition handler (allow : bool) (expiresIn : time.Duration) : tokenHandler :=
  mkTokenHandler (mkEntry []) ledger "Test Network"
    [server1; server2] (jose.mkJWK "secret" "HS256") "https://auth.example.org"
    expiresIn allow "auth.example.org" ["example.org"].

Definition post (raw : string) : Request := mkRequest "application/json" raw.

End Sample.

(** ** Notions the statements use *)

(** The variables as declared, before the loop has run. *)
Definition declared : Vars := mkVars None "" None "" None.

(** The call the loop makes for the candidate [s], and what it returns. *)
Definition readCall (h : tokenHandler) (req : tokenRequest) (s : keypair.FromAddress) : Call :=
  CallReadChallengeTx (Transaction req) (keypair.Address s) (NetworkPassphrase h)
    (Domain h) (HomeDomains h).

Definition read (h : tokenHandler) (W : World) (req : tokenRequest) (s : keypair.FromAddress)
    : option txnbuild.Transaction * string * string * option error :=
  ReadChallengeTx W (Transaction req) (keypair.Address s) (NetworkPassphrase h)
    (Domain h) (HomeDomains h).

(** The candidate does not validate the challenge. *)
Definition rejects (h : tokenHandler) (W : World) (req : tokenRequest)
    (s : keypair.FromAddress) : Prop :=
  (read h W req s).2 <> None.

(** The claim sets handed to the signer in a call log: the claims of every
  token the run tried to sign. *)
Definition claimsOf (c : Call) : option jwt.Claims :=
  match c with
  | CallCompactSerialize _ claims => Some claims
  | _ => None
  end.

Definition signedClaims (l : list Call) : list jwt.Claims := omap claimsOf l.

(** The signers constructed in a call log. *)
Definition signerOf (c : Call) : option jose.SigningKey :=
  match c with
  | CallNewSigner k _ => Some k
  | _ => None
  end.

Definition signersBuilt (l : list Call) : list jose.SigningKey := omap signerOf l.

(** The stages after key selection: every call but request decoding and
  challenge parsing. *)
Definition laterStage (c : Call) : bool :=
  match c with
  | CallDecode _ | CallReadChallengeTx _ _ _ _ _ => false
  | _ => true
  end.

(** A call of a later stage works on the request's challenge, with the
  selected server key [s] and for the client account [id] parsed under it;
  no later stage parses the challenge under another candidate. *)
Definition usesSelection (req : tokenRequest) (s : keypair.FromAddress) (id : string)
    (c : Call) : Prop :=
  match c with
  | CallDecode _ => False
  | CallReadChallengeTx _ _ _ _ _ => False
  | CallAccountDetail a => a = auroraclient.mkAccountRequest id
  | CallVerifyChallengeTxThreshold challengeTx serverAccountID _ _ _ _ _ =>
      challengeTx = Transaction req /\ serverAccountID = keypair.Address s
  | CallVerifyChallengeTxSigners challengeTx serverAccountID _ _ _ signer =>
      challengeTx = Transaction req /\ serverAccountID = keypair.Address s /\ signer = id
  | CallCompactSerialize _ claims => jwt.Subject claims = id
  | CallHashHex _ _ | CallNewSigner _ _ | CallLog _ _ _ => True
  end.

(** The calls that verify the challenge's signatures or build and use the
  token signer. *)
Definition verifiesOrSigns (c : Call) : bool :=
  match c with
  | CallVerifyChallengeTxThreshold _ _ _ _ _ _ _
  | CallVerifyChallengeTxSigners _ _ _ _ _ _
  | CallNewSigner _ _
  | CallCompactSerialize _ _ => true
  | _ => false
  end.

(** The handler with the policy flag set to [b]. *)
Definition setAllow (b : bool) (h : tokenHandler) : tokenHandler :=
  mkTokenHandler (Logger h) (AuroraClient h) (NetworkPassphrase h) (SigningAddresses h)
    (JWK h) (JWTIssuer h) (JWTExpiresIn h) b (Domain h) (HomeDomains h).


(** The run rendered a token. *)
Definition issued (m : Handler Empty_set) : Prop :=
  exists res, outcome m = RenderedJSON res.

(** ** The properties as the specification words them

  Each is a property of one run, stated for the values the run itself
  computes: the decoded request, the variables the candidate loop leaves,
  the parsed challenge. *)

(** The token's issuedAt is the challenge's minimum time bound and its
  expiry lies exactly the configured duration later. Numeric dates count
  seconds and durations count nanoseconds. *)
Definition exactWindow (h : tokenHandler) (W : World) (r : Request) : Prop :=
  forall res req l0 v t,
    outcome (ServeHTTP h W r) = RenderedJSON res ->
    Decode W r = (req, None) ->
    rangeSigningAddresses h W req (SigningAddresses h) declared = (l0, Next v) ->
    tx v = Some t ->
    exists claims iat exp,
      signedClaims (calls (ServeHTTP h W r)) = [claims] /\
      jwt.IssuedAt claims = Some iat /\
      jwt.Expiry claims = Some exp /\
      iat = txnbuild.MinTime (txnbuild.Timebounds_of t) /\
      (exp - iat) * time.Second = JWTExpiresIn h.




(** ** Further notions: what the call log shows of a run *)

(** The messages a call log holds at error level. *)
Definition errorOf (c : Call) : option string :=
  match c with
  | CallLog ErrorLevel _ msg => Some msg
  | _ => None
  end.

Definition errorLogs (l : list Call) : list string := omap errorOf l.

(** The call is one of the four whose failure the handler reports as a
  server error, and it returned the error [e]: hashing, an account lookup
  whose error is not a not-found error, building the signer, signing. *)
Definition failedWith (h : tokenHandler) (W : World) (c : Call) (e : error) : Prop :=
  match c with
  | CallHashHex t n => (HashHex W t n).2 = Some e
  | CallAccountDetail a =>
      (AccountDetail (AuroraClient h) a).2 = Some e /\ IsNotFoundError W e = false
  | CallNewSigner k o => (NewSigner W k o).2 = Some e
  | CallCompactSerialize jws claims => (CompactSerialize W jws claims).2 = Some e
  | _ => False
  end.

(** The stage of the pipeline a call belongs to; log entries belong to
  none. *)
Definition stage (c : Call) : option nat :=
  match c with
  | CallDecode _ => Some 0%nat
  | CallReadChallengeTx _ _ _ _ _ => Some 1%nat
  | CallHashHex _ _ => Some 2%nat
  | CallAccountDetail _ => Some 3%nat
  | CallVerifyChallengeTxThreshold _ _ _ _ _ _ _ => Some 4%nat
  | CallVerifyChallengeTxSigners _ _ _ _ _ _ => Some 4%nat
  | CallNewSigner _ _ => Some 5%nat
  | CallCompactSerialize _ _ => Some 6%nat
  | CallLog _ _ _ => None
  end.

Definition stages (l : list Call) : list nat := omap stage l.

(** The calls of a log that are not log entries. *)
Definition isLog (c : Call) : bool :=
  match c with
  | CallLog _ _ _ => true
  | _ => false
  end.

Definition collaboratorCalls (l : list Call) : list Call :=
  List.filter (fun c => negb (isLog c)) l.

(** The calls of the stages after key selection. *)
Definition laterCalls (l : list Call) : list Call := List.filter laterStage l.

(** The handler with another logger, and with other candidate keys. *)
Definition setLogger (l : Entry) (h : tokenHandler) : tokenHandler :=
  mkTokenHandler l (AuroraClient h) (NetworkPassphrase h) (SigningAddresses h)
    (JWK h) (JWTIssuer h) (JWTExpiresIn h) (AllowAccountsThatDoNotExist h)
    (Domain h) (HomeDomains h).

Definition setSigningAddresses (ss : list keypair.FromAddress) (h : tokenHandler)
    : tokenHandler :=
  mkTokenHandler (Logger h) (AuroraClient h) (NetworkPassphrase h) ss
    (JWK h) (JWTIssuer h) (JWTExpiresIn h) (AllowAccountsThatDoNotExist h)
    (Domain h) (HomeDomains h).

(** The candidate validates the challenge. *)
Definition accepts (h : tokenHandler) (W : World) (req : tokenRequest)
    (s : keypair.FromAddress) : Prop :=
  (read h W req s).2 = None.

(** The handler with another ledger client. *)
Definition setClient (c : ClientInterface) (h : tokenHandler) : tokenHandler :=
  mkTokenHandler (Logger h) c (NetworkPassphrase h) (SigningAddresses h)
    (JWK h) (JWTIssuer h) (JWTExpiresIn h) (AllowAccountsThatDoNotExist h)
    (Domain h) (HomeDomains h).

(** Two ledger clients that answer every lookup with the same error, the
  same high threshold and the same signer table; the low and medium
  thresholds they report may differ. *)
Definition sameButLowerThresholds (c1 c2 : ClientInterface) : Prop :=
  forall a,
    (AccountDetail c1 a).2 = (AccountDetail c2 a).2 /\
    auroraclient.HighThreshold (auroraclient.Thresholds (AccountDetail c1 a).1) =
    auroraclient.HighThreshold (auroraclient.Thresholds (AccountDetail c2 a).1) /\
    auroraclient.SignerSummary (AccountDetail c1 a).1 =
    auroraclient.SignerSummary (AccountDetail c2 a).1.

(** Two worlds that differ at most in the lists of signers their
  verification functions return next to the same verdicts. *)
Definition sameButVerifiedSigners (W1 W2 : World) : Prop :=
  (forall r, Decode W1 r = Decode W2 r) /\
  (forall c s n d hs, ReadChallengeTx W1 c s n d hs = ReadChallengeTx W2 c s n d hs) /\
  (forall t n, HashHex W1 t n = HashHex W2 t n) /\
  (forall e, IsNotFoundError W1 e = IsNotFoundError W2 e) /\
  (forall c s n d hs T m,
     (VerifyChallengeTxThreshold W1 c s n d hs T m).2 =
     (VerifyChallengeTxThreshold W2 c s n d hs T m).2) /\
  (forall c s n d hs id,
     (VerifyChallengeTxSigners W1 c s n d hs id).2 =
     (VerifyChallengeTxSigners W2 c s n d hs id).2) /\
  (forall k o, NewSigner W1 k o = NewSigner W2 k o) /\
  (forall jws claims, CompactSerialize W1 jws claims = CompactSerialize W2 jws claims).

(** A world whose verification functions report no signers next to their
  verdicts. *)
Definition withoutSignerLists (W : World) : World :=
  mkWorld (Decode W) (ReadChallengeTx W) (HashHex W) (IsNotFoundError W)
    (fun c s n d hs T m => ([], (VerifyChallengeTxThreshold W c s n d hs T m).2))
    (fun c s n d hs id => ([], (VerifyChallengeTxSigners W c s n d hs id).2))
    (NewSigner W) (CompactSerialize W).

(** * Properties *)

(** ** Machine arithmetic and time *)

Lemma wrap64_small z : int64_range z -> wrap64 z = z.
Proof.
  unfold int64_range, wrap64. intros H.
  rewrite Z.mod_small by lia. lia.
Qed.

Lemma unixToInternal_value : time.unixToInternal = 62135596800.
Proof. reflexivity. Qed.

Lemma unix_seconds m :
  0 <= m < 2 ^ 62 ->
  time.Unix m 0 = time.mkTime (m + time.unixToInternal) 0.
Proof.
  intros H. unfold time.Unix.
  change ((0 <? 0) || (1000000000 <=? 0)) with false. cbv iota.
  unfold time.unixTime. rewrite wrap64_small; [reflexivity|].
  unfold int64_range. rewrite unixToInternal_value. lia.
Qed.

(** Go's truncated division against the floor: the quotient and remainder
  of a duration by one second. *)
Lemma quot_rem_second d :
  d = 1000000000 * Z.quot d 1000000000 + Z.rem d 1000000000 /\
  - 1000000000 < Z.rem d 1000000000 < 1000000000 /\
  (0 <= d -> 0 <= Z.rem d 1000000000) /\
  (d <= 0 -> Z.rem d 1000000000 <= 0).
Proof.
  pose proof (Z.quot_rem' d 1000000000) as Hqr.
  pose proof (Z.rem_bound_abs d 1000000000 ltac:(lia)) as Hab.
  pose proof (Z.rem_nonneg d 1000000000 ltac:(lia)) as Hnn.
  pose proof (Z.rem_nonpos d 1000000000 ltac:(lia)) as Hnp.
  repeat split; try assumption; lia.
Qed.

(** [Add] moves an instant on a whole second by the duration rounded down
  to whole seconds, as far as [Unix] reads it. *)
Lemma add_seconds m d :
  0 <= m < 2 ^ 62 -> int64_range d ->
  exists ns,
    time.Add (time.mkTime (m + time.unixToInternal) 0) d =
    time.mkTime (m + d / 1000000000 + time.unixToInternal) ns.
Proof.
  intros Hm Hd. unfold int64_range in Hd.
  pose proof unixToInternal_value as Hu.
  destruct (quot_rem_second d) as (Hqr & Hb & Hnn & Hnp).
  unfold time.Add; cbn [time.ext time.nsec].
  rewrite Z.add_0_l.
  destruct (Z.leb_spec 1000000000 (Z.rem d 1000000000)) as [Hbig|Hsmall]; [lia|].
  destruct (Z.ltb_spec (Z.rem d 1000000000) 0) as [Hlt|Hge].
  - exists (Z.rem d 1000000000 + 1000000000).
    assert (Hfl : d / 1000000000 = Z.quot d 1000000000 - 1).
    { symmetry. apply Z.div_unique with (r := Z.rem d 1000000000 + 1000000000); lia. }
    unfold time.addSec; cbn [time.ext time.nsec].
    rewrite (wrap64_small (Z.quot d 1000000000 - 1)) by (unfold int64_range; lia).
    rewrite wrap64_small by (unfold int64_range; lia).
    f_equal. lia.
  - exists (Z.rem d 1000000000).
    assert (Hfl : d / 1000000000 = Z.quot d 1000000000).
    { symmetry. apply Z.div_unique with (r := Z.rem d 1000000000); lia. }
    unfold time.addSec; cbn [time.ext time.nsec].
    rewrite wrap64_small by (unfold int64_range; lia).
    f_equal. lia.
Qed.

Lemma numericDate_seconds s ns :
  0 < s + time.unixToInternal < 2 ^ 63 ->
  jwt.NewNumericDate (time.mkTime (s + time.unixToInternal) ns) = Some s.
Proof.
  intros H. unfold jwt.NewNumericDate, time.IsZero, time.UnixSec; cbn [time.ext time.nsec].
  destruct (Z.eqb_spec (s + time.unixToInternal) 0) as [E|_]; [lia|].
  rewrite andb_false_l. f_equal.
  unfold time.internalToUnix.
  replace (s + time.unixToInternal + - time.unixToInternal) with s by lia.
  apply wrap64_small. unfold int64_range.
  pose proof unixToInternal_value. lia.
Qed.

(** ** The candidate loop *)

Lemma range_rejected h W req ss v0 :
  Forall (rejects h W req) ss ->
  exists v,
    rangeSigningAddresses h W req ss v0 = (map (readCall h req) ss, Next v) /\
    signingAddress v = signingAddress v0.
Proof.
  intros Hall. revert v0.
  induction Hall as [|s rest Hs _ IH]; intros v0; simpl.
  - exists v0. split; reflexivity.
  - unfold rejects in Hs. fold (read h W req s).
    destruct (read h W req s) as [[[t i] d] [e|]]; simpl in *; [|congruence].
    destruct (IH (mkVars t i (signingAddress v0) d (Some e))) as (v & -> & Hv).
    exists v. split; [reflexivity|exact Hv].
Qed.

Lemma range_first h W req pre s post t id hd v0 :
  Forall (rejects h W req) pre ->
  read h W req s = (t, id, hd, None) ->
  rangeSigningAddresses h W req (pre ++ s :: post) v0 =
    (map (readCall h req) (pre ++ [s]), Next (mkVars t id (Some s) hd None)).
Proof.
  intros Hpre Hs. revert v0.
  induction Hpre as [|s' rest Hs' _ IH]; intros v0; simpl.
  - fold (read h W req s). rewrite Hs. reflexivity.
  - unfold rejects in Hs'. fold (read h W req s').
    destruct (read h W req s') as [[[t' i'] d'] [e|]]; simpl in *; [|congruence].
    rewrite IH. reflexivity.
Qed.

(** The candidates either all reject the challenge, or split at the first
  one that validates it. *)
Lemma candidates_split h W req ss :
  Forall (rejects h W req) ss \/
  exists pre s post t id hd,
    ss = (pre ++ s :: post)%list /\ Forall (rejects h W req) pre /\
    read h W req s = (t, id, hd, None).
Proof.
  induction ss as [|s rest IH].
  - left. constructor.
  - destruct (read h W req s) as [[[t i] d] [e|]] eqn:Hs.
    + destruct IH as [Hall|(pre & s' & post & t' & id & hd & -> & Hpre & Hs')].
      * left. constructor; [|exact Hall]. unfold rejects. rewrite Hs. discriminate.
      * right. exists (s :: pre), s', post, t', id, hd.
        split; [reflexivity|]. split; [|exact Hs'].
        constructor; [|exact Hpre]. unfold rejects. rewrite Hs. discriminate.
    + right. exists [], s, rest, t, i, d. split; [reflexivity|]. split; [constructor|exact Hs].
Qed.

(** What the loop leaves behind: a log of parse attempts, and either no
  selected key or the values of the parse that selected it. *)
Lemma range_shape h W req ss v0 :
  signingAddress v0 = None ->
  exists cs v,
    rangeSigningAddresses h W req ss v0 = (map (readCall h req) cs, Next v) /\
    (signingAddress v = None \/
     exists s, In s ss /\ signingAddress v = Some s /\
       read h W req s = (tx v, clientAccountID v, homeDomain v, None)).
Proof.
  intros Hv0.
  destruct (candidates_split h W req ss)
    as [Hall|(pre & s & post & t & id & hd & -> & Hpre & Hs)].
  - destruct (range_rejected h W req ss v0 Hall) as (v & Hr & Hv).
    exists ss, v. split; [exact Hr|]. left. congruence.
  - exists (pre ++ [s])%list, (mkVars t id (Some s) hd None).
    split; [apply range_first; assumption|].
    right. exists s. split; [apply in_or_app; right; left; reflexivity|].
    split; [reflexivity|exact Hs].
Qed.

Lemma readCall_not_later h req cs c :
  In c (map (readCall h req) cs) -> laterStage c = false.
Proof.
  intros Hin. apply in_map_iff in Hin. destruct Hin as (s & <- & _). reflexivity.
Qed.

Lemma signedClaims_reads h req cs : signedClaims (map (readCall h req) cs) = [].
Proof. induction cs as [|s cs IH]; [reflexivity|exact IH]. Qed.

Lemma signersBuilt_reads h req cs : signersBuilt (map (readCall h req) cs) = [].
Proof. induction cs as [|s cs IH]; [reflexivity|exact IH]. Qed.

Lemma signedClaims_app l1 l2 :
  signedClaims (l1 ++ l2) = (signedClaims l1 ++ signedClaims l2)%list.
Proof. apply omap_app. Qed.

Lemma signersBuilt_app l1 l2 :
  signersBuilt (l1 ++ l2) = (signersBuilt l1 ++ signersBuilt l2)%list.
Proof. apply omap_app. Qed.

(** ** Walking through the handler

  [handler_cases] opens the handler and follows every branch the source
  has: the loop by [range_shape], each collaborator's result by cases. *)

Ltac open_handler :=
  unfold calls, outcome, ServeHTTP, bind, call, Render, RenderJSON, Info, Error,
    deref, ret; simpl.

Ltac next_case :=
  match goal with
  | |- context [match ?x with _ => _ end] =>
      lazymatch x with
      | context [match _ with _ => _ end] => fail
      | rangeSigningAddresses ?h ?W ?req ?ss ?v =>
          let cs := fresh "cs" in
          let v' := fresh "v" in
          let E := fresh "Hrange" in
          let S := fresh "Hsel" in
          destruct (range_shape h W req ss v eq_refl) as (cs & v' & E & S);
          rewrite E
      | _ => let E := fresh "E" in destruct x eqn:E
      end
  end.

Ltac handler_cases := open_handler; repeat (next_case; simpl).

(** ** Key selection and the home domain *)

(** C5: a request whose challenge parses under a candidate key but whose
  parsed home domain is the empty string gets BadRequest; the run stops
  after the parse attempts, so nothing looks at the account, verifies a
  signature or signs a token, whatever signatures the challenge bears. *)
Theorem empty_home_domain_rejected h W r req l0 v s :
  Decode W r = (req, None) ->
  rangeSigningAddresses h W req (SigningAddresses h) declared = (l0, Next v) ->
  signingAddress v = Some s ->
  homeDomain v = "" ->
  ServeHTTP h W r = ((CallDecode r :: l0)%list, Done (Rendered badRequest)) /\
  (forall res, outcome (ServeHTTP h W r) <> RenderedJSON res) /\
  signedClaims (calls (ServeHTTP h W r)) = [] /\
  Forall (fun c => laterStage c = false) (calls (ServeHTTP h W r)).
Proof.
  intros Hd Hr Hs Hhd.
  assert (Hrun : ServeHTTP h W r = ((CallDecode r :: l0)%list, Done (Rendered badRequest))).
  { unfold ServeHTTP, bind, call. rewrite Hd. fold declared. rewrite Hr, Hs, Hhd.
    simpl. rewrite app_nil_r. reflexivity. }
  destruct (range_shape h W req (SigningAddresses h) declared eq_refl)
    as (cs & v' & Hr' & _).
  rewrite Hr in Hr'. injection Hr' as -> ->.
  rewrite Hrun. unfold outcome, calls. simpl.
  split; [reflexivity|]. split; [discriminate|].
  split; [apply signedClaims_reads|].
  constructor; [reflexivity|].
  apply List.Forall_forall. intros c Hc.
  exact (readCall_not_later _ _ _ _ Hc).
Qed.

Lemma empty_home_domain_rejected_witness :
  outcome (ServeHTTP (Sample.handler true (300 * time.Second)) (Sample.world true)
             (Sample.post "GALICE:nodomain")) = Rendered badRequest.
Proof.
  pose proof (empty_home_domain_rejected
    (Sample.handler true (300 * time.Second)) (Sample.world true)
    (Sample.post "GALICE:nodomain") (mkTokenRequest "GALICE:nodomain")
    _ _ Sample.server2 eq_refl eq_refl eq_refl eq_refl) as (H & _).
  rewrite H. reflexivity.
Defined.

(** C4: the loop tries the configured server keys in order and stops at the
  first that validates the challenge. If none does, the run is the decoding
  and one parse attempt per key, in order, and ends in BadRequest: no
  account lookup, verification or signing is attempted. If the keys split
  as [pre ++ s :: post] with [s] the first to validate, the parse attempts
  are exactly those for [pre] and then [s] (none for [post]), the loop's
  variables hold what the parse under [s] returned, and every later call
  works with [s] and the account identifier parsed under it. *)
Theorem first_valid_key_selected h W r req :
  Decode W r = (req, None) ->
  (Forall (rejects h W req) (SigningAddresses h) ->
   ServeHTTP h W r =
     ((CallDecode r :: map (readCall h req) (SigningAddresses h))%list,
      Done (Rendered badRequest))) /\
  (forall pre s post t id hd,
     SigningAddresses h = (pre ++ s :: post)%list ->
     Forall (rejects h W req) pre ->
     read h W req s = (t, id, hd, None) ->
     rangeSigningAddresses h W req (SigningAddresses h) declared =
       (map (readCall h req) (pre ++ [s]), Next (mkVars t id (Some s) hd None)) /\
     exists rest,
       calls (ServeHTTP h W r) =
         (CallDecode r :: map (readCall h req) (pre ++ [s]) ++ rest)%list /\
       Forall (usesSelection req s id) rest).
Proof.
  intros Hd. split.
  - intros Hall.
    destruct (range_rejected h W req (SigningAddresses h) declared Hall) as (v & Hr & Hv).
    unfold ServeHTTP, bind, call. rewrite Hd. fold declared. rewrite Hr.
    simpl in Hv. rewrite Hv. simpl. rewrite app_nil_r. reflexivity.
  - intros pre s post t id hd Hss Hpre Hs.
    assert (Hr : rangeSigningAddresses h W req (SigningAddresses h) declared =
      (map (readCall h req) (pre ++ [s]), Next (mkVars t id (Some s) hd None))).
    { rewrite Hss. apply range_first; assumption. }
    split; [exact Hr|].
    unfold calls, ServeHTTP, bind, call. rewrite Hd. fold declared. rewrite Hr.
    unfold Render, RenderJSON, Info, Error, deref, ret, call. simpl.
    repeat (next_case; simpl).
    all: eexists; split; [reflexivity|].
    all: repeat constructor.
Qed.

Lemma first_valid_key_selected_witness :
  calls (ServeHTTP (Sample.handler true (300 * time.Second)) (Sample.world true)
           (Sample.post "bogus")) =
    [CallDecode (Sample.post "bogus");
     CallReadChallengeTx "bogus" "GSERVER1" "Test Network" "auth.example.org" ["example.org"];
     CallReadChallengeTx "bogus" "GSERVER2" "Test Network" "auth.example.org" ["example.org"]] /\
  rangeSigningAddresses (Sample.handler true (300 * time.Second)) (Sample.world true)
    (mkTokenRequest "GALICE:A+B") [Sample.server1; Sample.server2] declared =
    ([CallReadChallengeTx "GALICE:A+B" "GSERVER1" "Test Network" "auth.example.org" ["example.org"];
      CallReadChallengeTx "GALICE:A+B" "GSERVER2" "Test Network" "auth.example.org" ["example.org"]],
     Next (mkVars (Some (Sample.challenge ["GA"; "GB"])) "GALICE" (Some Sample.server2)
             "example.org" None)).
Proof.
  split.
  - destruct (first_valid_key_selected
      (Sample.handler true (300 * time.Second)) (Sample.world true)
      (Sample.post "bogus") (mkTokenRequest "bogus") eq_refl) as (Hnone & _).
    rewrite Hnone; [reflexivity|].
    repeat constructor; unfold rejects; simpl; discriminate.
  - destruct (first_valid_key_selected
      (Sample.handler true (300 * time.Second)) (Sample.world true)
      (Sample.post "GALICE:A+B") (mkTokenRequest "GALICE:A+B") eq_refl) as (_ & Hsome).
    destruct (Hsome [Sample.server1] Sample.server2 []
      (Some (Sample.challenge ["GA"; "GB"])) "GALICE" "example.org" eq_refl) as (Hr & _).
    + repeat constructor. unfold rejects; simpl; discriminate.
    + reflexivity.
    + exact Hr.
Defined.

(** ** The parsed transaction is there when it is used *)

Lemma selected_tx h W req ss v0 l v :
  parsesOrFails W ->
  rangeSigningAddresses h W req ss v0 = (l, Next v) ->
  signingAddress v0 = None ->
  signingAddress v <> None ->
  tx v <> None.
Proof.
  intros HW Hr Hv0 Hv.
  destruct (range_shape h W req ss v0 Hv0) as (cs & v' & Hr' & Hsel).
  rewrite Hr in Hr'. injection Hr' as -> ->.
  destruct Hsel as [Hnone|(s & _ & _ & Hread)]; [congruence|].
  unfold read in Hread.
  pose proof (HW (Transaction req) (keypair.Address s) (NetworkPassphrase h)
    (Domain h) (HomeDomains h)) as Hc.
  rewrite Hread in Hc. simpl in Hc. apply Hc. reflexivity.
Qed.

(** C9: when parsing returns a transaction whenever it returns no error,
  the loop never leaves a selected signing address next to a nil
  transaction (the values of the selecting parse are the last ones
  assigned), and so no run of the handler panics: the three places that
  follow the transaction pointer (hashing, the signature count in the
  failure log, the time bounds) all find a transaction. *)
Theorem selected_transaction_not_nil h W :
  parsesOrFails W ->
  (forall req ss l v,
     rangeSigningAddresses h W req ss declared = (l, Next v) ->
     signingAddress v <> None -> tx v <> None) /\
  (forall r, outcome (ServeHTTP h W r) <> Panicked).
Proof.
  intros HW. split.
  - intros req ss l v Hr Hv. exact (selected_tx h W req ss declared l v HW Hr eq_refl Hv).
  - intros r. handler_cases.
    all: try discriminate.
    all: exfalso;
      match goal with
      | Hr : rangeSigningAddresses _ _ _ _ _ = (_, Next ?v), Ht : tx ?v = None |- _ =>
          apply (selected_tx _ _ _ _ _ _ _ HW Hr eq_refl); [congruence|exact Ht]
      end.
Qed.

Lemma selected_transaction_not_nil_witness :
  outcome (ServeHTTP (Sample.handler true (300 * time.Second)) (Sample.world true)
             (Sample.post "GALICE:A+B")) <> Panicked.
Proof.
  refine (proj2 (selected_transaction_not_nil
    (Sample.handler true (300 * time.Second)) (Sample.world true) _) _).
  intros c s n d hs. simpl. unfold Sample.parse.
  repeat match goal with
  | |- context [if ?b then _ else _] => destruct b
  end; simpl; congruence.
Defined.

(** ** Reading the call log of a run *)

Lemma reads_not_verifying h req cs :
  Forall (fun c => verifiesOrSigns c = false) (map (readCall h req) cs).
Proof. induction cs as [|s cs IH]; constructor; [reflexivity|exact IH]. Qed.

(** Splits a hypothesis [In c log] over the log of one branch of the
  handler, dropping the entries that cannot be [c]. *)
Ltac log_in H :=
  simpl in H; rewrite ?in_app_iff in H; simpl in H;
  repeat match type of H with
  | _ \/ _ => destruct H as [H|H]
  | False => destruct H
  | In _ (map (readCall _ _) _) => apply readCall_not_later in H; discriminate H
  | _ = _ => first [discriminate H | injection H; clear H; intros; subst]
  end.

(** Proves [In c log] for an entry the branch has logged. *)
Ltac log_mem := simpl; rewrite ?in_app_iff; simpl; auto 20.

(** Proves a [Forall] over the log of one branch. *)
Ltac log_all :=
  simpl;
  repeat first
    [ apply List.Forall_nil
    | apply List.Forall_cons; [reflexivity|]
    | apply Forall_app; split; [apply reads_not_verifying|] ].

(** Computes the signed claims or built signers of the log of one branch. *)
Ltac log_claims :=
  simpl; rewrite ?signedClaims_app, ?signersBuilt_app, ?signedClaims_reads, ?signersBuilt_reads;
  simpl.

(** ** Failures of the collaborators *)

(** C6: when the account lookup of a run returns an error that is not a
  not-found error, the run ends in ServerError: it is not Unauthorized, no
  token is issued, and the run goes on to no verification and no signing,
  so the error is not treated as a missing account. *)
Theorem lookup_failure_is_server_error h W r a acct e :
  In (CallAccountDetail a) (calls (ServeHTTP h W r)) ->
  AccountDetail (AuroraClient h) a = (acct, Some e) ->
  IsNotFoundError W e = false ->
  outcome (ServeHTTP h W r) = Rendered serverError /\
  signedClaims (calls (ServeHTTP h W r)) = [] /\
  Forall (fun c => verifiesOrSigns c = false) (calls (ServeHTTP h W r)).
Proof.
  intros Hin Had Hnf. revert Hin. handler_cases; intros Hin; log_in Hin.
  all: try congruence.
  all: split; [reflexivity|]; split; [log_claims; reflexivity|log_all].
Qed.

Lemma lookup_failure_is_server_error_witness :
  outcome (ServeHTTP (Sample.handler true (300 * time.Second)) (Sample.world true)
             (Sample.post "GDOWN:A")) = Rendered serverError.
Proof.
  refine (proj1 (lookup_failure_is_server_error
    (Sample.handler true (300 * time.Second)) (Sample.world true) (Sample.post "GDOWN:A")
    (auroraclient.mkAccountRequest "GDOWN") Sample.noAccount "timeout" _ eq_refl eq_refl)).
  vm_compute. auto 20.
Defined.

(** C7: a run in which hashing the challenge fails, or building the token
  signer fails, or signing the claims fails, ends in ServerError and so
  issues no token; in the first two cases nothing was handed to the signer
  at all. No run builds a signer twice or signs twice: a failed signing is
  not tried again. *)
Theorem internal_failure_is_server_error h W r :
  (forall t n,
     In (CallHashHex t n) (calls (ServeHTTP h W r)) ->
     (HashHex W t n).2 <> None ->
     outcome (ServeHTTP h W r) = Rendered serverError /\
     signedClaims (calls (ServeHTTP h W r)) = []) /\
  (forall k o,
     In (CallNewSigner k o) (calls (ServeHTTP h W r)) ->
     (NewSigner W k o).2 <> None ->
     outcome (ServeHTTP h W r) = Rendered serverError /\
     signedClaims (calls (ServeHTTP h W r)) = []) /\
  (forall jws c,
     In (CallCompactSerialize jws c) (calls (ServeHTTP h W r)) ->
     (CompactSerialize W jws c).2 <> None ->
     outcome (ServeHTTP h W r) = Rendered serverError) /\
  (length (signersBuilt (calls (ServeHTTP h W r))) <= 1)%nat /\
  (length (signedClaims (calls (ServeHTTP h W r))) <= 1)%nat.
Proof.
  handler_cases.
  all: split; [|split; [|split; [|split]]].
  all: try (log_claims; lia).
  all: intros x y Hin Hfail; log_in Hin.
  all: try (match goal with
            | E : _ = (_, None) |- _ => rewrite E in Hfail; simpl in Hfail; congruence
            end).
  all: try reflexivity.
  all: split; [reflexivity|log_claims; reflexivity].
Qed.

Lemma internal_failure_is_server_error_witness :
  outcome (ServeHTTP (Sample.handler true (300 * time.Second)) (Sample.world false)
             (Sample.post "GALICE:A+B")) = Rendered serverError.
Proof.
  destruct (internal_failure_is_server_error
    (Sample.handler true (300 * time.Second)) (Sample.world false)
    (Sample.post "GALICE:A+B")) as (_ & Hsigner & _).
  refine (proj1 (Hsigner (jose.mkSigningKey "HS256" "secret")
    (jose.mkSignerOptions (Some "JWT")) _ _)).
  - vm_compute. auto 20.
  - simpl. discriminate.
Defined.

(** ** The policy flag *)

Lemma range_setAllow b h W req ss v :
  rangeSigningAddresses (setAllow b h) W req ss v = rangeSigningAddresses h W req ss v.
Proof.
  revert v. induction ss as [|s rest IH]; intros v; simpl; [reflexivity|].
  destruct (ReadChallengeTx W (Transaction req) (keypair.Address s)
    (NetworkPassphrase h) (Domain h) (HomeDomains h)) as [[[t i] d] [e|]]; simpl.
  - rewrite IH. reflexivity.
  - reflexivity.
Qed.

(** C10: when every account the run looks up exists, the run does not
  depend on [AllowAccountsThatDoNotExist]: with the flag set either way the
  handler makes the same calls, with the same claims handed to the signer,
  and ends the same way. *)
Theorem flag_unused_for_existing_account h W r b :
  (forall a, In (CallAccountDetail a) (calls (ServeHTTP h W r)) ->
             (AccountDetail (AuroraClient h) a).2 = None) ->
  ServeHTTP (setAllow b h) W r = ServeHTTP h W r.
Proof.
  intros Hex. revert Hex. open_handler.
  destruct (Decode W r) as [req [e|]]; simpl; [reflexivity|].
  rewrite range_setAllow.
  repeat (next_case; simpl).
  all: intros Hex; try reflexivity.
  all: exfalso;
    match goal with
    | E : AccountDetail _ ?a = (_, Some ?e) |- _ =>
        specialize (Hex a); rewrite E in Hex; simpl in Hex;
        assert (Hc : Some e = None) by (apply Hex; log_mem);
        discriminate Hc
    end.
Qed.

Lemma flag_unused_for_existing_account_witness :
  ServeHTTP (setAllow false (Sample.handler true (300 * time.Second))) (Sample.world true)
    (Sample.post "GALICE:A+B") =
  ServeHTTP (Sample.handler true (300 * time.Second)) (Sample.world true)
    (Sample.post "GALICE:A+B").
Proof.
  apply flag_unused_for_existing_account.
  intros a Hin. vm_compute in Hin.
  repeat match type of Hin with
  | _ \/ _ => destruct Hin as [Hin|Hin]
  | False => destruct Hin
  | _ = _ => first [discriminate Hin | injection Hin as <-]
  end.
  reflexivity.
Defined.

(** ** The token's validity window *)

Lemma duration_seconds_bound d :
  int64_range d -> -9223372037 <= d / 1000000000 <= 9223372036.
Proof.
  unfold int64_range. intros H. split.
  - apply Z.div_le_lower_bound; lia.
  - assert (d / 1000000000 < 9223372037); [|lia].
    apply Z.div_lt_upper_bound; lia.
Qed.

(** Opens the handler at a run whose decoding and loop results are known. *)
Ltac enter_handler Hd Hr :=
  unfold issued, calls, outcome, ServeHTTP, bind, call;
  rewrite Hd; fold declared; rewrite Hr;
  unfold Render, RenderJSON, Info, Error, deref, ret, call; simpl.

(** C1, as stated, fails: with a token duration of one and a half seconds
  the token issued for a challenge with minimum time bound 1600000000
  carries issuedAt 1600000000 and expiry 1600000001, one second later and
  not one and a half. *)
Lemma exactWindow_fails_below_a_second :
  ~ exactWindow (Sample.handler false (1500 * time.Millisecond)) (Sample.world true)
      (Sample.post "GALICE:A+B").
Proof.
  intros H.
  destruct (H (mkTokenResponse "jwt:GALICE") (mkTokenRequest "GALICE:A+B")
    _ _ (Sample.challenge ["GA"; "GB"]) eq_refl eq_refl eq_refl eq_refl)
    as (claims & iat & exp & Hc & Hi & He & Hm & Hd).
  vm_compute in Hc. injection Hc as <-.
  simpl in Hi, He. injection Hi as <-. injection He as <-.
  vm_compute in Hd. discriminate Hd.
Qed.

(** C1, amended: every token the handler issues is signed over one claim
  set whose subject is the parsed client account; for a challenge whose
  minimum time bound [minTime] lies in [0, 2^62) and a duration in the
  int64 range, its issuedAt is [minTime], not a clock reading, and its
  expiry is [minTime] plus the duration rounded down to whole seconds. So
  expiry - issuedAt is the configured duration exactly when that is a
  whole number of seconds. *)
Theorem token_window h W r res req l0 v t :
  outcome (ServeHTTP h W r) = RenderedJSON res ->
  Decode W r = (req, None) ->
  rangeSigningAddresses h W req (SigningAddresses h) declared = (l0, Next v) ->
  tx v = Some t ->
  0 <= txnbuild.MinTime (txnbuild.Timebounds_of t) < 2 ^ 62 ->
  int64_range (JWTExpiresIn h) ->
  exists claims iat exp,
    signedClaims (calls (ServeHTTP h W r)) = [claims] /\
    jwt.Subject claims = clientAccountID v /\
    jwt.IssuedAt claims = Some iat /\
    jwt.Expiry claims = Some exp /\
    iat = txnbuild.MinTime (txnbuild.Timebounds_of t) /\
    exp - iat = JWTExpiresIn h / time.Second /\
    (JWTExpiresIn h mod time.Second = 0 -> (exp - iat) * time.Second = JWTExpiresIn h).
Proof.
  intros Hout Hd Hr Ht Hmin Hdur. revert Hout.
  destruct (range_shape h W req (SigningAddresses h) declared eq_refl)
    as (cs & v' & Hr' & _).
  rewrite Hr in Hr'. injection Hr' as -> ->.
  enter_handler Hd Hr. rewrite Ht. simpl.
  repeat (next_case; simpl).
  all: try discriminate.
  all: intros _.
  all: set (m := txnbuild.MinTime (txnbuild.Timebounds_of t)) in *.
  all: destruct (add_seconds m (JWTExpiresIn h) Hmin Hdur) as (ns & Hadd).
  all: eexists _, m, (m + JWTExpiresIn h / 1000000000).
  all: log_claims.
  all: rewrite (unix_seconds m Hmin), Hadd.
  all: pose proof (duration_seconds_bound _ Hdur) as Hq.
  all: pose proof unixToInternal_value as Hu.
  all: split; [reflexivity|]; split; [reflexivity|].
  all: split; [apply numericDate_seconds; lia|].
  all: split; [apply numericDate_seconds; lia|].
  all: split; [reflexivity|]; split; [unfold time.Second; lia|].
  all: unfold time.Second; intros Hmod;
    pose proof (Z.div_mod (JWTExpiresIn h) 1000000000 ltac:(lia)); lia.
Qed.

Lemma token_window_witness :
  exists claims,
    signedClaims (calls (ServeHTTP (Sample.handler false (300 * time.Second))
      (Sample.world true) (Sample.post "GALICE:A+B"))) = [claims] /\
    jwt.IssuedAt claims = Some 1600000000 /\
    jwt.Expiry claims = Some 1600000300.
Proof.
  destruct (token_window (Sample.handler false (300 * time.Second)) (Sample.world true)
    (Sample.post "GALICE:A+B") (mkTokenResponse "jwt:GALICE")
    (mkTokenRequest "GALICE:A+B") _ _ (Sample.challenge ["GA"; "GB"])
    eq_refl eq_refl eq_refl eq_refl)
    as (claims & iat & exp & Hc & _ & Hi & He & Hm & Hd & _).
  - simpl. lia.
  - unfold int64_range, time.Second. simpl. lia.
  - exists claims. split; [exact Hc|].
    simpl in Hm, Hd. subst iat.
    split; [exact Hi|]. rewrite He. f_equal.
    change (300 * time.Second / time.Second) with 300 in Hd. lia.
Defined.

(** ** Verification against the ledger *)

















(** ** Submitting a challenge again *)




(** ** The scenarios of the specification, run on the sample service *)

(** Scenario A: no home domain in the parsed challenge. *)
Example scenario_no_home_domain :
  outcome (ServeHTTP (Sample.handler true (300 * time.Second)) (Sample.world true)
             (Sample.post "GALICE:nodomain")) = Rendered badRequest.
Proof. reflexivity. Qed.

(** Scenario B: existing account, verified weight 20, threshold 30. *)
Example scenario_weight_below_threshold :
  signedWeight Sample.valid (Sample.challenge ["GA"]) (auroraclient.SignerSummary Sample.alice) = 20 /\
  outcome (ServeHTTP (Sample.handler true (300 * time.Second)) (Sample.world true)
             (Sample.post "GALICE:A")) = Rendered unauthorized.
Proof. split; vm_compute; reflexivity. Qed.

(** Scenario C: existing account, verified weight 30, threshold 30; the
  token's subject is the account identifier. *)
Example scenario_weight_meets_threshold :
  signedWeight Sample.valid (Sample.challenge ["GA"; "GB"])
    (auroraclient.SignerSummary Sample.alice) = 30 /\
  outcome (ServeHTTP (Sample.handler true (300 * time.Second)) (Sample.world true)
             (Sample.post "GALICE:A+B")) = RenderedJSON (mkTokenResponse "jwt:GALICE") /\
  map jwt.Subject
    (signedClaims (calls (ServeHTTP (Sample.handler true (300 * time.Second))
       (Sample.world true) (Sample.post "GALICE:A+B")))) = ["GALICE"].
Proof. repeat split; vm_compute; reflexivity. Qed.

(** Scenario D: account not on the ledger, flag on, valid signature of the
  account's own key. *)
Example scenario_new_account_allowed :
  outcome (ServeHTTP (Sample.handler true (300 * time.Second)) (Sample.world true)
             (Sample.post "GNEW:self")) = RenderedJSON (mkTokenResponse "jwt:GNEW").
Proof. vm_compute; reflexivity. Qed.

(** Scenario E: account not on the ledger, flag off. *)
Example scenario_new_account_refused :
  outcome (ServeHTTP (Sample.handler false (300 * time.Second)) (Sample.world true)
             (Sample.post "GNEW:self")) = Rendered unauthorized.
Proof. vm_compute; reflexivity. Qed.

(** * Further properties of the handler *)

(** ** Which runs end in which response *)

Lemma laterCalls_reads h req cs : laterCalls (map (readCall h req) cs) = [].
Proof. induction cs as [|s cs IH]; [reflexivity|exact IH]. Qed.

Lemma reads_not_later h req cs :
  Forall (fun c => laterStage c = false) (map (readCall h req) cs).
Proof. induction cs as [|s cs IH]; constructor; [reflexivity|exact IH]. Qed.

(** X1: the handler answers BadRequest exactly when the request does not
  decode, or no configured key validates the challenge, or the parse under
  the selected key reports an empty home domain; and a run that ends in
  BadRequest has called nothing but the decoder and the parser. *)
Theorem bad_request_exactly h W r :
  (outcome (ServeHTTP h W r) = Rendered badRequest <->
   (Decode W r).2 <> None \/
   exists l v,
     rangeSigningAddresses h W (Decode W r).1 (SigningAddresses h) declared
       = (l, Next v) /\
     (signingAddress v = None \/ homeDomain v = "")) /\
  (outcome (ServeHTTP h W r) = Rendered badRequest ->
   Forall (fun c => laterStage c = false) (calls (ServeHTTP h W r))).
Proof.
  open_handler.
  destruct (Decode W r) as [req [e|]] eqn:Hd; simpl.
  { split; [|intros _; repeat constructor].
    split; [intros _; left; discriminate|reflexivity]. }
  fold declared.
  destruct (range_shape h W req (SigningAddresses h) declared eq_refl)
    as (cs & v & Hr & _).
  rewrite Hr.
  assert (Hstop : signingAddress v = None \/ homeDomain v = "" ->
    exists l v', (map (readCall h req) cs, Next v) = (l, Next v') /\
      (signingAddress v' = None \/ homeDomain v' = "")) by (intros Hs; eauto).
  assert (Hgo : forall s, signingAddress v = Some s -> homeDomain v <> "" ->
    ~ ((@None error <> None) \/
       exists l v', (map (readCall h req) cs, Next v) = (l, Next v') /\
         (signingAddress v' = None \/ homeDomain v' = ""))).
  { intros s Hs Hhd [Hn|(l & v' & Heq & Hv)]; [congruence|].
    injection Heq as <- <-. destruct Hv; congruence. }
  repeat (next_case; simpl).
  all: try match goal with
    | E : (_ =? _)%string = true |- _ => apply String.eqb_eq in E
    | E : (_ =? _)%string = false |- _ => apply String.eqb_neq in E
    end.
  all: split; [split|].
  all: try (intros _; right; apply Hstop; auto; fail).
  all: try reflexivity.
  all: try discriminate.
  all: try (intros Hc; exfalso; eapply Hgo; eauto; fail).
  all: intros _; simpl; rewrite ?app_nil_r;
    constructor; [reflexivity|apply reads_not_later].
Qed.

Lemma errorLogs_app l1 l2 : errorLogs (l1 ++ l2) = (errorLogs l1 ++ errorLogs l2)%list.
Proof. apply omap_app. Qed.

Lemma errorLogs_reads h req cs : errorLogs (map (readCall h req) cs) = [].
Proof. induction cs as [|s cs IH]; [reflexivity|exact IH]. Qed.

Lemma reads_never_fail h W req cs c e :
  In c (map (readCall h req) cs) -> ~ failedWith h W c e.
Proof.
  intros Hin. apply in_map_iff in Hin. destruct Hin as (s & <- & _). simpl. tauto.
Qed.

(** Computes the error-level messages of the log of one branch. *)
Ltac log_errors := simpl; rewrite ?errorLogs_app, ?errorLogs_reads; simpl.

(** From [In c log] and [failedWith h W c e] in one branch: the call [c]
  is one the branch made, and the result the branch assumes for it is the
  error [e]. Branches in which no call failed that way are closed. *)
Ltac failed_call Hin Hf :=
  simpl in Hin; rewrite ?in_app_iff in Hin; simpl in Hin;
  repeat match type of Hin with
  | _ \/ _ => destruct Hin as [Hin|Hin]
  | False => destruct Hin
  | In _ (map (readCall _ _) _) => exfalso; exact (reads_never_fail _ _ _ _ _ _ Hin Hf)
  | _ = ?c => subst c; simpl in Hf
  end;
  try contradiction;
  try match type of Hf with _ /\ _ => destruct Hf as [Hf ?] end;
  try match goal with
  | E : ?x = (_, _) |- _ =>
      match type of Hf with context [x] => rewrite E in Hf; simpl in Hf end
  end;
  try discriminate Hf;
  try (injection Hf as Hf; subst).

(** X2: the handler answers ServerError exactly when one of four calls of
  the run failed: hashing the challenge, an account lookup whose error is
  not a not-found error, building the token signer, or signing the claims.
  The error of that call is then the one message the run logs at error
  level, and a run that ends otherwise logs nothing at error level. *)
Theorem server_error_exactly h W r :
  (outcome (ServeHTTP h W r) = Rendered serverError <->
   exists c e, In c (calls (ServeHTTP h W r)) /\ failedWith h W c e) /\
  (forall c e,
     In c (calls (ServeHTTP h W r)) -> failedWith h W c e ->
     errorLogs (calls (ServeHTTP h W r)) = [e]) /\
  (outcome (ServeHTTP h W r) <> Rendered serverError ->
   errorLogs (calls (ServeHTTP h W r)) = []).
Proof.
  split; [split|split].
  - handler_cases; intros Hout; try discriminate Hout.
    all: match goal with
      | E : HashHex _ ?t ?n = (_, Some ?e) |- _ =>
          exists (CallHashHex t n), e; split; [log_mem|simpl; rewrite E; reflexivity]
      | E : CompactSerialize _ ?j ?c = (_, Some ?e) |- _ =>
          exists (CallCompactSerialize j c), e; split; [log_mem|simpl; rewrite E; reflexivity]
      | E : NewSigner _ ?k ?o = (_, Some ?e) |- _ =>
          exists (CallNewSigner k o), e; split; [log_mem|simpl; rewrite E; reflexivity]
      | E : AccountDetail _ ?a = (_, Some ?e), N : IsNotFoundError _ ?e = false |- _ =>
          exists (CallAccountDetail a), e; split; [log_mem|simpl; rewrite E; auto]
      end.
  - handler_cases; intros (c & e' & Hin & Hf); try reflexivity.
    all: failed_call Hin Hf.
    all: congruence.
  - intros c e' Hin Hf. revert Hin. handler_cases; intros Hin.
    all: failed_call Hin Hf.
    all: try congruence.
    all: log_errors; reflexivity.
  - handler_cases; intros Hne; log_errors; try reflexivity.
    all: exfalso; apply Hne; reflexivity.
Qed.

(** ** The order of the stages *)

Lemma stages_app l1 l2 : stages (l1 ++ l2) = (stages l1 ++ stages l2)%list.
Proof. apply omap_app. Qed.

Lemma stages_reads h req cs :
  stages (map (readCall h req) cs) = replicate (length cs) 1%nat.
Proof. induction cs as [|s cs IH]; [reflexivity|]. simpl. f_equal. exact IH. Qed.

(** X3: the calls of a run follow the pipeline. After the one decoding and
  the parse attempts come, in this order and each at most once, hashing,
  the account lookup, one verification (by threshold or by master key),
  building the signer and signing; the run may stop after any of them but
  never skips one, so nothing is signed without a verification before it
  and nothing is verified without an account lookup before it. *)
Theorem stages_in_order h W r :
  exists n rest,
    stages (calls (ServeHTTP h W r)) = (0%nat :: replicate n 1%nat ++ rest)%list /\
    rest `prefix_of` [2%nat; 3%nat; 4%nat; 5%nat; 6%nat].
Proof.
  handler_cases.
  all: try (exists 0%nat, []; split; [reflexivity|apply prefix_nil]).
  all: eexists (length _), _; simpl;
    rewrite ?stages_app, ?stages_reads; simpl.
  all: split; [reflexivity|].
  all: try apply prefix_nil.
  all: eexists; reflexivity.
Qed.

(** ** What stands behind a response *)

(** X4: a token is rendered only at the end of a run in which every stage
  succeeded: the request decoded, a configured key validated the challenge
  with a non-empty home domain, hashing worked, and either the account
  exists and the threshold verification accepted, for the account's high
  threshold and signer table, or the lookup reported not-found, the policy
  flag is on and the master-key verification accepted; the signer was
  built from the configured key and algorithm with type JWT. The token is
  the signer's output for the one claim set built: issuer the configured
  issuer, subject the parsed client account, no audience, no not-before
  and no identifier. *)
Theorem token_only_after_every_stage h W r res :
  outcome (ServeHTTP h W r) = RenderedJSON res ->
  exists req l v s t hash acct oe sv jws claims,
    Decode W r = (req, None) /\
    rangeSigningAddresses h W req (SigningAddresses h) declared = (l, Next v) /\
    signingAddress v = Some s /\ In s (SigningAddresses h) /\
    read h W req s = (Some t, clientAccountID v, homeDomain v, None) /\
    homeDomain v <> "" /\
    HashHex W t (NetworkPassphrase h) = (hash, None) /\
    AccountDetail (AuroraClient h) (auroraclient.mkAccountRequest (clientAccountID v))
      = (acct, oe) /\
    match oe with
    | None =>
        VerifyChallengeTxThreshold W (Transaction req) (keypair.Address s)
          (NetworkPassphrase h) (Domain h) (HomeDomains h)
          (auroraclient.HighThreshold (auroraclient.Thresholds acct))
          (auroraclient.SignerSummary acct) = (sv, None)
    | Some e =>
        IsNotFoundError W e = true /\ AllowAccountsThatDoNotExist h = true /\
        VerifyChallengeTxSigners W (Transaction req) (keypair.Address s)
          (NetworkPassphrase h) (Domain h) (HomeDomains h) (clientAccountID v)
          = (sv, None)
    end /\
    NewSigner W (jose.mkSigningKey (jose.Algorithm (JWK h)) (jose.Key (JWK h)))
      (jose.mkSignerOptions (Some "JWT")) = (jws, None) /\
    signedClaims (calls (ServeHTTP h W r)) = [claims] /\
    CompactSerialize W jws claims = (Token res, None) /\
    jwt.Issuer claims = JWTIssuer h /\
    jwt.Subject claims = clientAccountID v /\
    jwt.Audience claims = [] /\
    jwt.NotBefore claims = None /\
    jwt.ID claims = "".
Proof.
  handler_cases; intros Hout; try discriminate Hout.
  all: injection Hout as <-.
  all: match goal with
    | S : _ \/ _ |- _ =>
        destruct S as [S|(s' & Hin & Hs' & Hread)]; [discriminate S|];
        injection Hs' as <-
    end.
  all: match goal with
    | E : (_ =? _)%string = false |- _ => apply String.eqb_neq in E
    end.
  all: match goal with
    | E : negb ?b = false |- _ => destruct b eqn:Hflag; [clear E|discriminate E]
    | _ => idtac
    end.
  all: repeat match goal with
    | E : ?o = None |- _ => is_var o; clear E
    | E : ?o = Some _ |- _ => is_var o; clear E
    end.
  all: do 11 eexists.
  all: repeat match goal with
    | |- _ /\ _ => split
    end.
  all: try eassumption; try reflexivity.
  all: try (log_claims; reflexivity).
  all: simpl; repeat split; try eassumption; auto.
Qed.

(** X5: Unauthorized is only ever the verdict of the verification policy. A
  run that ends in Unauthorized has decoded the request, selected a key,
  hashed the challenge and looked the account up; then either the account
  exists and the threshold verification refused, or the lookup reported
  not-found and the policy flag is off or the master-key verification
  refused. Such a run builds no signer, signs nothing and logs nothing at
  error level. *)
Theorem unauthorized_only_by_policy h W r :
  outcome (ServeHTTP h W r) = Rendered unauthorized ->
  exists req l v s t hash acct oe,
    Decode W r = (req, None) /\
    rangeSigningAddresses h W req (SigningAddresses h) declared = (l, Next v) /\
    signingAddress v = Some s /\ tx v = Some t /\ homeDomain v <> "" /\
    HashHex W t (NetworkPassphrase h) = (hash, None) /\
    AccountDetail (AuroraClient h) (auroraclient.mkAccountRequest (clientAccountID v))
      = (acct, oe) /\
    match oe with
    | None =>
        (VerifyChallengeTxThreshold W (Transaction req) (keypair.Address s)
           (NetworkPassphrase h) (Domain h) (HomeDomains h)
           (auroraclient.HighThreshold (auroraclient.Thresholds acct))
           (auroraclient.SignerSummary acct)).2 <> None
    | Some e =>
        IsNotFoundError W e = true /\
        (AllowAccountsThatDoNotExist h = false \/
         (VerifyChallengeTxSigners W (Transaction req) (keypair.Address s)
            (NetworkPassphrase h) (Domain h) (HomeDomains h) (clientAccountID v)).2
           <> None)
    end /\
    signersBuilt (calls (ServeHTTP h W r)) = [] /\
    signedClaims (calls (ServeHTTP h W r)) = [] /\
    errorLogs (calls (ServeHTTP h W r)) = [].
Proof.
  handler_cases; intros Hout; try discriminate Hout.
  all: match goal with
    | E : (_ =? _)%string = false |- _ => apply String.eqb_neq in E
    end.
  all: do 8 eexists.
  all: repeat match goal with
    | |- _ /\ _ => split
    end.
  all: try eassumption; try reflexivity.
  all: try (log_claims; reflexivity).
  all: try (log_errors; reflexivity).
  all: simpl.
  all: try (match goal with
      | E : VerifyChallengeTxThreshold _ _ _ _ _ _ _ _ = _ |- _ => rewrite E
      end; simpl; discriminate).
  all: split; [assumption|].
  all: try (match goal with
      | E : VerifyChallengeTxSigners _ _ _ _ _ _ _ = _ |- _ => rewrite E
      end; right; simpl; discriminate).
  all: left; match goal with
    | E : negb ?b = true |- _ => destruct b; [discriminate E|reflexivity]
    end.
Qed.

(** X6: the handler panics in one situation only: a parse reported success
  for the selected key, with a non-empty home domain, but handed back a nil
  transaction. The panic is the dereference at hashing, so it comes before
  any call of a later stage: when hashing has been reached with a
  transaction, the two later uses of the transaction cannot panic. *)
Theorem panic_only_at_hashing h W r :
  (outcome (ServeHTTP h W r) = Panicked <->
   exists req l v s,
     Decode W r = (req, None) /\
     rangeSigningAddresses h W req (SigningAddresses h) declared = (l, Next v) /\
     signingAddress v = Some s /\ homeDomain v <> "" /\ tx v = None) /\
  (outcome (ServeHTTP h W r) = Panicked ->
   Forall (fun c => laterStage c = false) (calls (ServeHTTP h W r))).
Proof.
  handler_cases.
  all: try match goal with
    | E : (_ =? _)%string = true |- _ => apply String.eqb_eq in E
    | E : (_ =? _)%string = false |- _ => apply String.eqb_neq in E
    end.
  all: split; [split|].
  all: try discriminate.
  all: try (intros _; do 4 eexists; repeat split; try eassumption; reflexivity).
  all: try (intros _; simpl; rewrite ?app_nil_r;
            constructor; [reflexivity|apply reads_not_later]).
  all: intros (req & l' & v' & s' & Hd & Hr & Hs & Hhd & Ht).
  all: try discriminate Hd.
  all: assert (Hreq : req = t) by congruence; subst req; unfold declared in Hr;
    match goal with
    | E : rangeSigningAddresses _ _ _ _ _ = (map _ _, _) |- _ => rewrite E in Hr
    end;
    assert (Hv : v' = v) by congruence; subst v'; congruence.
Qed.

(** ** What the response does not depend on *)

Lemma range_setLogger lg h W req ss v :
  rangeSigningAddresses (setLogger lg h) W req ss v = rangeSigningAddresses h W req ss v.
Proof.
  revert v. induction ss as [|s rest IH]; intros v; simpl; [reflexivity|].
  destruct (ReadChallengeTx W (Transaction req) (keypair.Address s)
    (NetworkPassphrase h) (Domain h) (HomeDomains h)) as [[[t i] d] [e|]]; simpl.
  - rewrite IH. reflexivity.
  - reflexivity.
Qed.

Lemma range_setSigningAddresses ss' h W req ss v :
  rangeSigningAddresses (setSigningAddresses ss' h) W req ss v =
  rangeSigningAddresses h W req ss v.
Proof.
  revert v. induction ss as [|s rest IH]; intros v; simpl; [reflexivity|].
  destruct (ReadChallengeTx W (Transaction req) (keypair.Address s)
    (NetworkPassphrase h) (Domain h) (HomeDomains h)) as [[[t i] d] [e|]]; simpl.
  - rewrite IH. reflexivity.
  - reflexivity.
Qed.

Lemma collaboratorCalls_app l1 l2 :
  collaboratorCalls (l1 ++ l2) = (collaboratorCalls l1 ++ collaboratorCalls l2)%list.
Proof. apply List.filter_app. Qed.

Lemma collaboratorCalls_reads h req cs :
  collaboratorCalls (map (readCall h req) cs) = map (readCall h req) cs.
Proof. induction cs as [|s cs IH]; [reflexivity|]. simpl. f_equal. exact IH. Qed.

Lemma laterCalls_app l1 l2 : laterCalls (l1 ++ l2) = (laterCalls l1 ++ laterCalls l2)%list.
Proof. apply List.filter_app. Qed.

(** X7: logging is an observer. With any other logger the handler makes
  the same calls to its collaborators, with the same arguments and in the
  same order, and ends the same way; only the log entries differ. *)
Theorem logger_is_an_observer lg h W r :
  outcome (ServeHTTP (setLogger lg h) W r) = outcome (ServeHTTP h W r) /\
  collaboratorCalls (calls (ServeHTTP (setLogger lg h) W r)) =
  collaboratorCalls (calls (ServeHTTP h W r)).
Proof.
  open_handler.
  destruct (Decode W r) as [req [e|]]; simpl; [split; reflexivity|].
  rewrite range_setLogger.
  repeat (next_case; simpl).
  all: split; [reflexivity|].
  all: rewrite ?collaboratorCalls_app, ?collaboratorCalls_reads; reflexivity.
Qed.

(** X8: the candidates after the first validating key play no part. If
  every key of [pre] rejects the request's challenge and [s] validates it,
  the handler configured with [pre ++ s :: post] runs exactly as the one
  configured with [pre ++ [s]]: same calls, same log, same response. So
  appending keys to the configuration (key rotation) changes nothing for
  challenges an earlier key validates. *)
Theorem keys_after_the_selected_one_unused h W r pre s post :
  Forall (rejects h W (Decode W r).1) pre ->
  accepts h W (Decode W r).1 s ->
  ServeHTTP (setSigningAddresses (pre ++ s :: post) h) W r =
  ServeHTTP (setSigningAddresses (pre ++ [s]) h) W r.
Proof.
  intros Hpre Hs. unfold ServeHTTP, bind, call. simpl.
  destruct (Decode W r) as [req [e|]]; simpl in *; [reflexivity|].
  unfold accepts in Hs.
  destruct (read h W req s) as [[[t id] hd] oe] eqn:Hread. simpl in Hs. subst oe.
  fold declared. rewrite !range_setSigningAddresses.
  rewrite (range_first h W req pre s post t id hd declared Hpre Hread).
  rewrite (range_first h W req pre s [] t id hd declared Hpre Hread).
  reflexivity.
Qed.

Lemma keys_after_the_selected_one_unused_witness :
  ServeHTTP (setSigningAddresses ([Sample.server1] ++ Sample.server2 :: [Sample.server1])
               (Sample.handler true (300 * time.Second)))
    (Sample.world true) (Sample.post "GALICE:A+B") =
  ServeHTTP (setSigningAddresses ([Sample.server1] ++ [Sample.server2])
               (Sample.handler true (300 * time.Second)))
    (Sample.world true) (Sample.post "GALICE:A+B").
Proof.
  apply keys_after_the_selected_one_unused.
  - repeat constructor. unfold rejects. simpl. discriminate.
  - reflexivity.
Defined.

(** X9: when at most one configured key validates a challenge, the order of
  the keys does not matter to the client. For two configurations that hold
  the same keys in different orders, the handler ends the same way and
  makes the same calls after key selection (hashing, lookup, verification,
  signing and log entries, with the same arguments); only the parse
  attempts before the selection differ. *)
Theorem key_order_irrelevant_with_one_valid_key h W r ss ss' :
  Permutation ss ss' ->
  (forall s1 s2, In s1 ss -> In s2 ss ->
     accepts h W (Decode W r).1 s1 -> accepts h W (Decode W r).1 s2 -> s1 = s2) ->
  outcome (ServeHTTP (setSigningAddresses ss' h) W r) =
  outcome (ServeHTTP (setSigningAddresses ss h) W r) /\
  laterCalls (calls (ServeHTTP (setSigningAddresses ss' h) W r)) =
  laterCalls (calls (ServeHTTP (setSigningAddresses ss h) W r)).
Proof.
  intros Hperm Huniq.
  unfold calls, outcome, ServeHTTP, bind, call. simpl.
  destruct (Decode W r) as [req [e|]]; simpl in *; [split; reflexivity|].
  fold declared. rewrite !range_setSigningAddresses.
  destruct (candidates_split h W req ss)
    as [Hall|(pre & s & post & t & id & hd & Hss & Hpre & Hs)].
  - assert (Hall' : Forall (rejects h W req) ss')
      by (eapply Permutation_Forall; eassumption).
    destruct (range_rejected h W req ss declared Hall) as (v & -> & Hv).
    destruct (range_rejected h W req ss' declared Hall') as (v' & -> & Hv').
    simpl in Hv, Hv'. rewrite Hv, Hv'. simpl.
    rewrite !app_nil_r, !laterCalls_reads. split; reflexivity.
  - assert (Hins : In s ss) by (rewrite Hss; apply in_or_app; right; left; reflexivity).
    destruct (candidates_split h W req ss')
      as [Hall'|(pre' & s' & post' & t' & id' & hd' & Hss' & Hpre' & Hs')].
    + exfalso.
      assert (Hin' : In s ss') by (eapply Permutation_in; eassumption).
      rewrite List.Forall_forall in Hall'. apply (Hall' s Hin').
      rewrite Hs. reflexivity.
    + assert (Hins' : In s' ss).
      { eapply Permutation_in; [apply Permutation_sym; exact Hperm|].
        rewrite Hss'. apply in_or_app; right; left; reflexivity. }
      assert (Heq : s' = s).
      { apply Huniq; try assumption; unfold accepts.
        - rewrite Hs'. reflexivity.
        - rewrite Hs. reflexivity. }
      subst s'. rewrite Hs in Hs'. injection Hs' as <- <- <-.
      rewrite Hss, Hss'.
      rewrite (range_first h W req pre s post t id hd declared Hpre Hs).
      rewrite (range_first h W req pre' s post' t id hd declared Hpre' Hs).
      unfold Render, RenderJSON, Info, Error, deref, ret, call. simpl.
      repeat (next_case; simpl).
      all: split; [reflexivity|].
      all: rewrite ?laterCalls_app, ?laterCalls_reads; reflexivity.
Qed.

Lemma key_order_irrelevant_with_one_valid_key_witness :
  outcome (ServeHTTP (setSigningAddresses [Sample.server2; Sample.server1]
                        (Sample.handler true (300 * time.Second)))
             (Sample.world true) (Sample.post "GALICE:A+B")) =
  outcome (ServeHTTP (setSigningAddresses [Sample.server1; Sample.server2]
                        (Sample.handler true (300 * time.Second)))
             (Sample.world true) (Sample.post "GALICE:A+B")).
Proof.
  refine (proj1 (key_order_irrelevant_with_one_valid_key
    (Sample.handler true (300 * time.Second)) (Sample.world true)
    (Sample.post "GALICE:A+B") [Sample.server1; Sample.server2]
    [Sample.server2; Sample.server1] _ _)).
  - apply perm_swap.
  - intros s1 s2 H1 H2 A1 A2. simpl in H1, H2.
    destruct H1 as [<-|[<-|[]]]; destruct H2 as [<-|[<-|[]]];
      try reflexivity; vm_compute in A1, A2; discriminate.
Defined.

(** X10: the policy flag can only change an Unauthorized answer. If the
  handler with the flag off answers a request with anything but
  Unauthorized (a token, BadRequest, ServerError), the handler with the
  flag set either way runs exactly the same. *)
Theorem flag_changes_only_unauthorized h W r b :
  AllowAccountsThatDoNotExist h = false ->
  outcome (ServeHTTP h W r) <> Rendered unauthorized ->
  ServeHTTP (setAllow b h) W r = ServeHTTP h W r.
Proof.
  intros Hoff Hout. revert Hout. open_handler. rewrite Hoff.
  destruct (Decode W r) as [req [e|]]; simpl; [reflexivity|].
  rewrite range_setAllow.
  repeat (next_case; simpl).
  all: intros Hout; try reflexivity.
  all: exfalso; apply Hout; reflexivity.
Qed.

Lemma flag_changes_only_unauthorized_witness :
  ServeHTTP (setAllow true (Sample.handler false (300 * time.Second)))
    (Sample.world true) (Sample.post "GDOWN:A") =
  ServeHTTP (Sample.handler false (300 * time.Second))
    (Sample.world true) (Sample.post "GDOWN:A").
Proof.
  apply flag_changes_only_unauthorized.
  - reflexivity.
  - vm_compute. discriminate.
Defined.

(** ** The token's dates at the edges *)

Lemma wrap64_high z : 2 ^ 63 <= z < 2 ^ 63 + 2 ^ 64 -> wrap64 z = z - 2 ^ 64.
Proof.
  unfold wrap64. intros H.
  rewrite <- (Z.mod_unique (z + 2 ^ 63) (2 ^ 64) 1 (z + 2 ^ 63 - 2 ^ 64)); lia.
Qed.

(** [Unix] then [Unix()] gives the seconds back, over the whole int64
  range; the zero [Time] is hit at one value only. *)
Lemma numericDate_unix m :
  int64_range m ->
  jwt.NewNumericDate (time.Unix m 0) =
    if m =? - time.unixToInternal then None else Some m.
Proof.
  unfold int64_range. intros Hm.
  pose proof unixToInternal_value as Hu.
  unfold time.Unix.
  change ((0 <? 0) || (1000000000 <=? 0)) with false. cbv iota.
  unfold time.unixTime, jwt.NewNumericDate, time.IsZero, time.UnixSec, time.internalToUnix;
    cbn [time.ext time.nsec].
  rewrite Z.eqb_refl, andb_true_r.
  destruct (Z_lt_le_dec (m + time.unixToInternal) (2 ^ 63)) as [Hlow|Hhigh].
  - rewrite (wrap64_small (m + time.unixToInternal)) by (unfold int64_range; lia).
    destruct (Z.eqb_spec (m + time.unixToInternal) 0) as [Hz|Hnz];
      destruct (Z.eqb_spec m (- time.unixToInternal)) as [Hz'|Hnz']; try lia;
      [reflexivity|].
    f_equal. replace (m + time.unixToInternal + - time.unixToInternal) with m by lia.
    apply wrap64_small. unfold int64_range. lia.
  - rewrite (wrap64_high (m + time.unixToInternal)) by lia.
    destruct (Z.eqb_spec (m + time.unixToInternal - 2 ^ 64) 0) as [Hz|Hnz];
      destruct (Z.eqb_spec m (- time.unixToInternal)) as [Hz'|Hnz']; try lia.
    f_equal. unfold wrap64.
    rewrite <- (Z.mod_unique (m + time.unixToInternal - 2 ^ 64 + - time.unixToInternal + 2 ^ 63)
                  (2 ^ 64) (-1) (m + 2 ^ 63)); lia.
Qed.

(** The dates of the one claim set of a run that issues a token, as the
  handler computes them from the selected challenge. *)
Lemma issued_dates h W r res req l0 v t :
  outcome (ServeHTTP h W r) = RenderedJSON res ->
  Decode W r = (req, None) ->
  rangeSigningAddresses h W req (SigningAddresses h) declared = (l0, Next v) ->
  tx v = Some t ->
  exists claims,
    signedClaims (calls (ServeHTTP h W r)) = [claims] /\
    jwt.IssuedAt claims =
      jwt.NewNumericDate (time.Unix (txnbuild.MinTime (txnbuild.Timebounds_of t)) 0) /\
    jwt.Expiry claims =
      jwt.NewNumericDate
        (time.Add (time.Unix (txnbuild.MinTime (txnbuild.Timebounds_of t)) 0)
           (JWTExpiresIn h)).
Proof.
  intros Hout Hd Hr Ht. revert Hout.
  destruct (range_shape h W req (SigningAddresses h) declared eq_refl)
    as (cs & v' & Hr' & _).
  rewrite Hr in Hr'. injection Hr' as -> ->.
  enter_handler Hd Hr. rewrite Ht. simpl.
  repeat (next_case; simpl).
  all: try discriminate.
  all: intros _; eexists; log_claims.
  all: split; [reflexivity|split; reflexivity].
Qed.

(** X11: the issuedAt claim is the challenge's minimum time bound for every
  int64 value of it but one: at -62135596800, the Unix second of Go's zero
  [Time], the claim set carries no issuedAt at all. *)
Theorem issued_at_over_int64 h W r res req l0 v t :
  outcome (ServeHTTP h W r) = RenderedJSON res ->
  Decode W r = (req, None) ->
  rangeSigningAddresses h W req (SigningAddresses h) declared = (l0, Next v) ->
  tx v = Some t ->
  int64_range (txnbuild.MinTime (txnbuild.Timebounds_of t)) ->
  exists claims,
    signedClaims (calls (ServeHTTP h W r)) = [claims] /\
    jwt.IssuedAt claims =
      if txnbuild.MinTime (txnbuild.Timebounds_of t) =? -62135596800
      then None
      else Some (txnbuild.MinTime (txnbuild.Timebounds_of t)).
Proof.
  intros Hout Hd Hr Ht Hm.
  destruct (issued_dates h W r res req l0 v t Hout Hd Hr Ht) as (claims & Hc & Hi & _).
  exists claims. split; [exact Hc|].
  rewrite Hi, (numericDate_unix _ Hm). reflexivity.
Qed.

(** X12: a misconfigured duration shows in the token. For a minimum time
  bound in [0, 2^62) and a duration in the int64 range: a duration of less
  than one second (zero included) gives expiry equal to issuedAt, a
  negative duration gives expiry before issuedAt, and expiry lies after
  issuedAt exactly when the duration is at least one second. *)
Theorem expiry_against_issued_at h W r res req l0 v t :
  outcome (ServeHTTP h W r) = RenderedJSON res ->
  Decode W r = (req, None) ->
  rangeSigningAddresses h W req (SigningAddresses h) declared = (l0, Next v) ->
  tx v = Some t ->
  0 <= txnbuild.MinTime (txnbuild.Timebounds_of t) < 2 ^ 62 ->
  int64_range (JWTExpiresIn h) ->
  exists claims iat exp,
    signedClaims (calls (ServeHTTP h W r)) = [claims] /\
    jwt.IssuedAt claims = Some iat /\
    jwt.Expiry claims = Some exp /\
    (0 <= JWTExpiresIn h < time.Second -> exp = iat) /\
    (JWTExpiresIn h < 0 -> exp < iat) /\
    (iat < exp <-> time.Second <= JWTExpiresIn h).
Proof.
  intros Hout Hd Hr Ht Hm Hdur.
  destruct (issued_dates h W r res req l0 v t Hout Hd Hr Ht) as (claims & Hc & Hi & He).
  set (m := txnbuild.MinTime (txnbuild.Timebounds_of t)) in *.
  destruct (add_seconds m (JWTExpiresIn h) Hm Hdur) as (ns & Hadd).
  pose proof (duration_seconds_bound _ Hdur) as Hq.
  pose proof unixToInternal_value as Hu.
  rewrite (unix_seconds m Hm) in Hi, He. rewrite Hadd in He.
  rewrite numericDate_seconds in Hi by lia.
  rewrite numericDate_seconds in He by lia.
  exists claims, m, (m + JWTExpiresIn h / 1000000000).
  split; [exact Hc|]. split; [exact Hi|]. split; [exact He|].
  unfold time.Second.
  pose proof (Z.div_mod (JWTExpiresIn h) 1000000000 ltac:(lia)) as Hdm.
  pose proof (Z.mod_pos_bound (JWTExpiresIn h) 1000000000 ltac:(lia)) as Hmb.
  split; [|split; [|split]]; intros; lia.
Qed.

Lemma range_setClient c h W req ss v :
  rangeSigningAddresses (setClient c h) W req ss v = rangeSigningAddresses h W req ss v.
Proof.
  revert v. induction ss as [|s rest IH]; intros v; simpl; [reflexivity|].
  destruct (ReadChallengeTx W (Transaction req) (keypair.Address s)
    (NetworkPassphrase h) (Domain h) (HomeDomains h)) as [[[t i] d] [e|]]; simpl.
  - rewrite IH. reflexivity.
  - reflexivity.
Qed.

(** X13: the low and medium thresholds of the account have no influence.
  Against two ledgers that report, for every account, the same lookup
  error, the same high threshold and the same signer table, the handler
  runs exactly the same: same calls, same log, same response. *)
Theorem lower_thresholds_unused h W r c1 c2 :
  sameButLowerThresholds c1 c2 ->
  ServeHTTP (setClient c1 h) W r = ServeHTTP (setClient c2 h) W r.
Proof.
  intros Hsame. open_handler.
  destruct (Decode W r) as [req [e|]]; simpl; [reflexivity|].
  rewrite !range_setClient.
  destruct (range_shape h W req (SigningAddresses h)
    (mkVars None "" None "" None) eq_refl) as (cs & v & -> & _).
  destruct (signingAddress v) as [s|]; simpl; [|reflexivity].
  destruct (String.eqb (homeDomain v) ""); simpl; [reflexivity|].
  destruct (tx v) as [t|]; simpl; [|reflexivity].
  destruct (HashHex W t (NetworkPassphrase h)) as [hash [e|]]; simpl; [reflexivity|].
  destruct (Hsame (auroraclient.mkAccountRequest (clientAccountID v)))
    as (Herr & Hhigh & Hsum).
  destruct (AccountDetail c1 (auroraclient.mkAccountRequest (clientAccountID v)))
    as [acct1 e1].
  destruct (AccountDetail c2 (auroraclient.mkAccountRequest (clientAccountID v)))
    as [acct2 e2].
  simpl in Herr, Hhigh, Hsum. subst e2. rewrite Hhigh, Hsum.
  repeat (next_case; simpl).
  all: reflexivity.
Qed.

Lemma lower_thresholds_unused_witness :
  ServeHTTP (setClient Sample.ledger (Sample.handler true (300 * time.Second)))
    (Sample.world true) (Sample.post "GALICE:A+B") =
  ServeHTTP
    (setClient
       (mkClient (fun req =>
          ((auroraclient.mkAccount (auroraclient.mkThresholds 200 200
              (auroraclient.HighThreshold
                 (auroraclient.Thresholds (AccountDetail Sample.ledger req).1)))
              (auroraclient.Signers (AccountDetail Sample.ledger req).1)),
           (AccountDetail Sample.ledger req).2)))
       (Sample.handler true (300 * time.Second)))
    (Sample.world true) (Sample.post "GALICE:A+B").
Proof.
  apply lower_thresholds_unused.
  intros a. repeat split.
Defined.

Lemma range_same_reads h W1 W2 req ss v :
  (forall c s n d hs, ReadChallengeTx W1 c s n d hs = ReadChallengeTx W2 c s n d hs) ->
  rangeSigningAddresses h W2 req ss v = rangeSigningAddresses h W1 req ss v.
Proof.
  intros Hread. revert v. induction ss as [|s rest IH]; intros v; simpl; [reflexivity|].
  rewrite <- Hread.
  destruct (ReadChallengeTx W1 (Transaction req) (keypair.Address s)
    (NetworkPassphrase h) (Domain h) (HomeDomains h)) as [[[t i] d] [e|]]; simpl.
  - rewrite IH. reflexivity.
  - reflexivity.
Qed.

(** X14: the signers a verification reports are used for the log only. In
  two worlds whose verification functions give the same verdicts but
  report different lists of signers, the handler makes the same calls to
  its collaborators, hands the same claims to the signer and ends the same
  way. *)
Theorem verified_signers_only_logged h W1 W2 r :
  sameButVerifiedSigners W1 W2 ->
  outcome (ServeHTTP h W2 r) = outcome (ServeHTTP h W1 r) /\
  collaboratorCalls (calls (ServeHTTP h W2 r)) =
  collaboratorCalls (calls (ServeHTTP h W1 r)).
Proof.
  intros (Hdec & Hread & Hhash & Hnf & Hthr & Hsig & Hns & Hcs).
  open_handler.
  repeat (rewrite <- ?Hdec, <- ?Hhash, <- ?Hnf, <- ?Hns, <- ?Hcs,
            ?(range_same_reads h W1 W2) by exact Hread;
          next_case; simpl).
  all: try (split; [reflexivity|];
            rewrite ?collaboratorCalls_app, ?collaboratorCalls_reads; reflexivity).
  all: exfalso;
    match goal with
    | E1 : VerifyChallengeTxThreshold ?Wa ?c ?s ?n ?d ?hs ?T ?m = (_, ?o1),
      E2 : VerifyChallengeTxThreshold ?Wb ?c ?s ?n ?d ?hs ?T ?m = (_, ?o2) |- _ =>
        pose proof (Hthr c s n d hs T m) as Hc; rewrite ?E1, ?E2 in Hc;
        simpl in Hc; discriminate Hc
    | E1 : VerifyChallengeTxSigners ?Wa ?c ?s ?n ?d ?hs ?id = (_, ?o1),
      E2 : VerifyChallengeTxSigners ?Wb ?c ?s ?n ?d ?hs ?id = (_, ?o2) |- _ =>
        pose proof (Hsig c s n d hs id) as Hc; rewrite ?E1, ?E2 in Hc;
        simpl in Hc; discriminate Hc
    end.
Qed.

(** ** The loop over a concatenation *)

(** X15: the candidate loop composes. Run over [ss1 ++ ss2] from variables
  with no selected key, it is the loop over [ss1] followed, only if that
  selected no key, by the loop over [ss2] from the variables the first
  part left; if the first part selected a key, no candidate of [ss2] is
  tried. *)
Theorem range_over_concatenation h W req ss1 ss2 v :
  signingAddress v = None ->
  rangeSigningAddresses h W req (ss1 ++ ss2) v =
    (v1 <- rangeSigningAddresses h W req ss1 v ;;
     match signingAddress v1 with
     | Some _ => ret v1
     | None => rangeSigningAddresses h W req ss2 v1
     end).
Proof.
  revert v. induction ss1 as [|s rest IH]; intros v Hv; simpl.
  - unfold bind, ret. simpl. rewrite Hv.
    destruct (rangeSigningAddresses h W req ss2 v) as [l st]. reflexivity.
  - unfold bind, call. simpl.
    destruct (ReadChallengeTx W (Transaction req) (keypair.Address s)
      (NetworkPassphrase h) (Domain h) (HomeDomains h)) as [[[t i] d] [e|]]; simpl.
    + rewrite IH by exact Hv. unfold bind.
      destruct (rangeSigningAddresses h W req rest
        (mkVars t i (signingAddress v) d (Some e))) as [l [v1|o]]; simpl.
      * destruct (signingAddress v1); simpl.
        -- reflexivity.
        -- destruct (rangeSigningAddresses h W req ss2 v1) as [l2 st2]. simpl.
           reflexivity.
      * reflexivity.
    + reflexivity.
Qed.

Lemma range_over_concatenation_witness :
  rangeSigningAddresses (Sample.handler true (300 * time.Second)) (Sample.world true)
    (mkTokenRequest "GALICE:A+B") ([Sample.server1] ++ [Sample.server2]) declared =
  (v1 <- rangeSigningAddresses (Sample.handler true (300 * time.Second)) (Sample.world true)
           (mkTokenRequest "GALICE:A+B") [Sample.server1] declared ;;
   match signingAddress v1 with
   | Some _ => ret v1
   | None =>
       rangeSigningAddresses (Sample.handler true (300 * time.Second)) (Sample.world true)
         (mkTokenRequest "GALICE:A+B") [Sample.server2] v1
   end).
Proof.
  apply range_over_concatenation. reflexivity.
Defined.

(** ** The further properties on the sample service *)

Lemma bad_request_exactly_witness :
  outcome (ServeHTTP (Sample.handler true (300 * time.Second)) (Sample.world true)
             (Sample.post "")) = Rendered badRequest.
Proof.
  apply (proj1 (bad_request_exactly (Sample.handler true (300 * time.Second))
    (Sample.world true) (Sample.post ""))).
  left. simpl. discriminate.
Defined.

Lemma server_error_exactly_witness :
  errorLogs (calls (ServeHTTP (Sample.handler true (300 * time.Second))
    (Sample.world true) (Sample.post "GDOWN:A"))) = ["timeout"].
Proof.
  apply (proj1 (proj2 (server_error_exactly (Sample.handler true (300 * time.Second))
    (Sample.world true) (Sample.post "GDOWN:A")))
    (CallAccountDetail (auroraclient.mkAccountRequest "GDOWN"))).
  - vm_compute. auto 20.
  - simpl. split; reflexivity.
Defined.

Lemma token_only_after_every_stage_witness :
  exists claims,
    signedClaims (calls (ServeHTTP (Sample.handler true (300 * time.Second))
      (Sample.world true) (Sample.post "GNEW:self"))) = [claims] /\
    jwt.Issuer claims = "https://auth.example.org" /\
    jwt.Audience claims = [].
Proof.
  destruct (token_only_after_every_stage (Sample.handler true (300 * time.Second))
    (Sample.world true) (Sample.post "GNEW:self") (mkTokenResponse "jwt:GNEW") eq_refl)
    as (req & l & v & s & t & hash & acct & oe & sv & jws & claims & _ & _ & _ & _ & _ & _
        & _ & _ & _ & _ & Hc & _ & Hiss & _ & Haud & _).
  exists claims. split; [exact Hc|]. split; [exact Hiss|exact Haud].
Defined.

Lemma unauthorized_only_by_policy_witness :
  signedClaims (calls (ServeHTTP (Sample.handler true (300 * time.Second))
    (Sample.world true) (Sample.post "GALICE:A"))) = [].
Proof.
  destruct (unauthorized_only_by_policy (Sample.handler true (300 * time.Second))
    (Sample.world true) (Sample.post "GALICE:A") eq_refl)
    as (req & l & v & s & t & hash & acct & oe & _ & _ & _ & _ & _ & _ & _ & _ & _ & Hc & _).
  exact Hc.
Defined.

Lemma panic_only_at_hashing_witness :
  outcome (ServeHTTP (Sample.handler true (300 * time.Second))
    (mkWorld (Decode (Sample.world true))
       (fun _ _ _ _ _ => (None, "GALICE", "example.org", None))
       (HashHex (Sample.world true)) (IsNotFoundError (Sample.world true))
       (VerifyChallengeTxThreshold (Sample.world true))
       (VerifyChallengeTxSigners (Sample.world true))
       (NewSigner (Sample.world true)) (CompactSerialize (Sample.world true)))
    (Sample.post "GALICE:A+B")) = Panicked.
Proof.
  apply (proj1 (panic_only_at_hashing _ _ _)).
  exists (mkTokenRequest "GALICE:A+B"). do 2 eexists. exists Sample.server1.
  repeat split; try reflexivity. simpl. discriminate.
Defined.

Lemma issued_at_over_int64_witness :
  exists claims,
    signedClaims (calls (ServeHTTP (Sample.handler true (300 * time.Second))
      (Sample.world true) (Sample.post "GALICE:A+B"))) = [claims] /\
    jwt.IssuedAt claims = Some 1600000000.
Proof.
  refine (issued_at_over_int64 (Sample.handler true (300 * time.Second))
    (Sample.world true) (Sample.post "GALICE:A+B") (mkTokenResponse "jwt:GALICE")
    (mkTokenRequest "GALICE:A+B") _ _ (Sample.challenge ["GA"; "GB"])
    eq_refl eq_refl eq_refl eq_refl _).
  unfold int64_range. simpl. lia.
Defined.

Lemma expiry_against_issued_at_witness :
  exists claims iat,
    signedClaims (calls (ServeHTTP (Sample.handler true (999 * time.Millisecond))
      (Sample.world true) (Sample.post "GALICE:A+B"))) = [claims] /\
    jwt.IssuedAt claims = Some iat /\
    jwt.Expiry claims = Some iat.
Proof.
  destruct (expiry_against_issued_at (Sample.handler true (999 * time.Millisecond))
    (Sample.world true) (Sample.post "GALICE:A+B") (mkTokenResponse "jwt:GALICE")
    (mkTokenRequest "GALICE:A+B") _ _ (Sample.challenge ["GA"; "GB"])
    eq_refl eq_refl eq_refl eq_refl)
    as (claims & iat & exp & Hc & Hi & He & Hsub & _).
  - simpl. lia.
  - unfold int64_range, time.Millisecond. simpl. lia.
  - exists claims, iat. split; [exact Hc|]. split; [exact Hi|].
    rewrite He. f_equal. apply Hsub.
    unfold time.Millisecond, time.Second. simpl. lia.
Defined.

Lemma verified_signers_only_logged_witness :
  outcome (ServeHTTP (Sample.handler true (300 * time.Second))
             (withoutSignerLists (Sample.world true)) (Sample.post "GALICE:A+B")) =
  outcome (ServeHTTP (Sample.handler true (300 * time.Second))
             (Sample.world true) (Sample.post "GALICE:A+B")).
Proof.
  refine (proj1 (verified_signers_only_logged (Sample.handler true (300 * time.Second))
    (Sample.world true) (withoutSignerLists (Sample.world true))
    (Sample.post "GALICE:A+B") _)).
  repeat split; intros; reflexivity.
Defined.
